(** * Metric aggregation routines of the fitbit dashboard

    A shallow embedding of the statistical routines of the dashboard:

    - [get_glucose_daily], [get_glucose_time_in_range] and [get_glucose_agp],
      the three glucose endpoints of [backend/app/routers/data.py];
    - [linearRegression], the trend-line helper of
      [frontend/src/pages/Correlations.tsx].

    Around them it covers the per-day endpoint [get_glucose_readings], the
    import loop of [upload_cgm] and [sync_cgm], the glucose pre-aggregation
    of the correlation endpoint, and on the front end the correlation badge
    and trend line, the heart-rate page's regression, trend and
    [downsample], the glucose page's chart rows and the activity heatmap.

    Number model.  Glucose values, thresholds and timestamps are integers
    ([Z]).  Python floats and JavaScript numbers are idealised as exact
    rationals ([Q]): a quotient such as [in_range / total * 100] is the exact
    rational, [round] rounds that rational to the nearest multiple of the
    requested power of ten with ties going to the even neighbour (Python's
    documented policy), and [int] truncates toward zero.  A value printed
    with one decimal, such as [33.3], is the rational [333 # 10]. *)

From Stdlib Require Import ZArith QArith Qround Qabs Qminmax Lia Lqa String.
From stdpp Require Import gmap list sorting pretty.

Local Open Scope Z_scope.

(** ** Python arithmetic *)

Module Py.

(** [round(x)]: nearest integer, ties to the even neighbour. *)
Definition round (x : Q) : Z :=
  let f := Qfloor x in
  match (x - inject_Z f ?= 1 # 2)%Q with
  | Lt => f
  | Gt => f + 1
  | Eq => if Z.even f then f else f + 1
  end.

(** [round(x, 1)]: nearest multiple of one tenth. *)
Definition round1 (x : Q) : Q := round (x * 10) # 10.

(** [int(x)] on a float: truncation toward zero. *)
Definition int (x : Q) : Z := Z.quot (Qnum x) (Zpos (Qden x)).

(** [a / b] on integers is true division and raises [ZeroDivisionError]
    on a zero divisor; [None] stands for the raised exception. *)
Definition truediv (a b : Z) : option Q :=
  if decide (b = 0) then None else Some (inject_Z a / inject_Z b)%Q.

(** [sum(gen)] accumulates from [0], left to right. *)
Definition sum (l : list Z) : Z := fold_left Z.add l 0.

End Py.

(** ** Data model *)

(** A row of the [glucose_readings] table.  [timestamp] is a naive datetime,
    counted in seconds from midnight of day [0]; [value] is in mg/dL. *)
Record GlucoseReading := {
  timestamp : Z;
  value : Z
}.

(** [func.date(ts)] and [ts.hour]. *)
Definition date_of (ts : Z) : Z := ts / 86400.
Definition hour_of (ts : Z) : nat := Z.to_nat (ts mod 86400 / 3600).

(** [db.query(...).filter(timestamp >= start_dt, timestamp < end_dt).all()] *)
Definition query_window (db : list GlucoseReading) (start_dt end_dt : Z)
  : list GlucoseReading :=
  filter (λ r, start_dt ≤ timestamp r ∧ timestamp r < end_dt) db.

(** ** Time in range *)

Record TimeInRange := {
  total_readings : Z;
  in_range_percent : Q;
  low_percent : Q;
  high_percent : Q;
  very_low_percent : Q;
  very_high_percent : Q
}.

(** [sum(1 for r in readings if cond(r))] *)
Definition count_where (cond : GlucoseReading → Prop)
    `{!∀ r, Decision (cond r)} (readings : list GlucoseReading) : Z :=
  Py.sum ((λ _, 1) <$> filter cond readings).

(** The local variables of [get_glucose_time_in_range] after line
    [in_range = total - low - high]. *)
Record TirCounts := {
  total : Z;
  low : Z;
  high : Z;
  very_low : Z;
  very_high : Z;
  in_range : Z
}.

Definition tir_counts (low_threshold high_threshold : Z)
    (readings : list GlucoseReading) : TirCounts :=
  let total := Z.of_nat (length readings) in
  let low := count_where (λ r, value r < low_threshold) readings in
  let high := count_where (λ r, value r > high_threshold) readings in
  let very_low := count_where (λ r, value r < 54) readings in
  let very_high := count_where (λ r, value r > 250) readings in
  let in_range := total - low - high in
  {| total := total; low := low; high := high;
     very_low := very_low; very_high := very_high; in_range := in_range |}.

(** [round(count / total * 100, 1)] *)
Definition percent_of (count total : Z) : option Q :=
  q ← Py.truediv count total; Some (Py.round1 (q * 100)).

Definition time_in_range_of (low_threshold high_threshold : Z)
    (readings : list GlucoseReading) : option TimeInRange :=
  match readings with
  | [] =>
      Some {| total_readings := 0; in_range_percent := 0; low_percent := 0;
              high_percent := 0; very_low_percent := 0;
              very_high_percent := 0 |}
  | _ :: _ =>
      let c := tir_counts low_threshold high_threshold readings in
      ir ← percent_of (in_range c) (total c);
      lo ← percent_of (low c) (total c);
      hi ← percent_of (high c) (total c);
      vl ← percent_of (very_low c) (total c);
      vh ← percent_of (very_high c) (total c);
      Some {| total_readings := total c; in_range_percent := ir;
              low_percent := lo; high_percent := hi;
              very_low_percent := vl; very_high_percent := vh |}
  end.

Definition get_glucose_time_in_range (db : list GlucoseReading)
    (start_dt end_dt : Z) (low_threshold high_threshold : Z)
  : option TimeInRange :=
  time_in_range_of low_threshold high_threshold
    (query_window db start_dt end_dt).

(** The default thresholds of the endpoint, [Query(70)] and [Query(180)]. *)
Definition default_low_threshold : Z := 70.
Definition default_high_threshold : Z := 180.

(** ** Daily summaries *)

Module Daily.

Record DailySummary := {
  date : Z;
  avg : Z;
  min : option Z;
  max : option Z;
  count : Z
}.

(** SQL aggregates over one group; [None] is SQL [NULL], the value of
    [AVG], [MIN] and [MAX] over no rows. *)
Definition sql_avg (vs : list Z) : option Q :=
  match vs with
  | [] => None
  | _ :: _ => Some (inject_Z (Py.sum vs) / inject_Z (Z.of_nat (length vs)))%Q
  end.

Definition sql_min (vs : list Z) : option Z :=
  match vs with
  | [] => None
  | v :: vs' => Some (fold_left Z.min vs' v)
  end.

Definition sql_max (vs : list Z) : option Z :=
  match vs with
  | [] => None
  | v :: vs' => Some (fold_left Z.max vs' v)
  end.

(** The values of the group of date [d]. *)
Definition group_values (d : Z) (rows : list GlucoseReading) : list Z :=
  value <$> filter (λ r, date_of (timestamp r) = d) rows.

(** [GROUP BY func.date(timestamp) ORDER BY func.date(timestamp)]: one
    group per distinct date, dates ascending. *)
Definition group_dates (rows : list GlucoseReading) : list Z :=
  merge_sort Z.le (remove_dups ((λ r, date_of (timestamp r)) <$> rows)).

(** One element of the list comprehension; [round(None)] raises. *)
Definition summary_row (rows : list GlucoseReading) (d : Z)
  : option DailySummary :=
  let vs := group_values d rows in
  a ← sql_avg vs;
  Some {| date := d; avg := Py.round a; min := sql_min vs;
          max := sql_max vs; count := Z.of_nat (length vs) |}.

Definition get_glucose_daily (db : list GlucoseReading)
    (start_dt end_dt : Z) : option (list DailySummary) :=
  let rows := query_window db start_dt end_dt in
  mapM (summary_row rows) (group_dates rows).

End Daily.

(** ** Ambulatory glucose profile *)

Module Agp.

Record HourlyStat := {
  hour : nat;
  p10 : option Z;
  p25 : option Z;
  median : option Z;
  p75 : option Z;
  p90 : option Z;
  count : nat
}.

(** [np.percentile(arr, q)] with numpy's default method ("linear"): the
    array is sorted, the virtual index is [(n - 1) * q / 100], and the result
    interpolates linearly between the two neighbouring order statistics (the
    upper neighbour is clipped to the last element). *)
Definition lerp (a b t : Q) : Q := (a + (b - a) * t)%Q.

Definition interpolate (sorted : list Z) (virtual_index : Q) : Q :=
  let previous := Z.to_nat (Qfloor virtual_index) in
  let next := Nat.min (previous + 1) (length sorted - 1) in
  let gamma := (virtual_index - inject_Z (Qfloor virtual_index))%Q in
  lerp (inject_Z (sorted !!! previous)) (inject_Z (sorted !!! next)) gamma.

Definition percentile (arr : list Z) (q : Z) : Q :=
  let sorted := merge_sort Z.le arr in
  let n := Z.of_nat (length sorted) in
  interpolate sorted (inject_Z (n - 1) * (inject_Z q / 100))%Q.

(** [{h: [] for h in range(24)}] *)
Definition empty_buckets : gmap nat (list Z) :=
  list_to_map ((λ h, (h, [])) <$> seq 0 24).

(** [hourly_values[hour].append(r.value)]; a missing key raises
    [KeyError]. *)
Definition add_reading (hourly_values : gmap nat (list Z))
    (r : GlucoseReading) : option (gmap nat (list Z)) :=
  let hour := hour_of (timestamp r) in
  values ← hourly_values !! hour;
  Some (<[hour := values ++ [value r]]> hourly_values).

Definition group_by_hour (readings : list GlucoseReading)
  : option (gmap nat (list Z)) :=
  foldl (λ acc r, hourly_values ← acc; add_reading hourly_values r)
        (Some empty_buckets) readings.

(** The body of [for hour in range(24)]. *)
Definition hourly_stat (hourly_values : gmap nat (list Z)) (hour : nat)
  : option HourlyStat :=
  values ← hourly_values !! hour;
  match values with
  | [] =>
      Some {| hour := hour; p10 := None; p25 := None; median := None;
              p75 := None; p90 := None; count := 0 |}
  | _ :: _ =>
      Some {| hour := hour;
              p10 := Some (Py.int (percentile values 10));
              p25 := Some (Py.int (percentile values 25));
              median := Some (Py.int (percentile values 50));
              p75 := Some (Py.int (percentile values 75));
              p90 := Some (Py.int (percentile values 90));
              count := length values |}
  end.

(** The ["hourly"] field of the response. *)
Definition get_glucose_agp (db : list GlucoseReading) (start_dt end_dt : Z)
  : option (list HourlyStat) :=
  let readings := query_window db start_dt end_dt in
  hourly_values ← group_by_hour readings;
  mapM (hourly_stat hourly_values) (seq 0 24).

(** The values observed in hour [h], in query order. *)
Definition hour_values (h : nat) (readings : list GlucoseReading) : list Z :=
  value <$> filter (λ r, hour_of (timestamp r) = h) readings.

End Agp.

(** ** Trend line of the correlation page *)

Module Correlations.

Record CorrelationPoint := {
  date : string;
  x : Q;
  y : Q
}.

Record Regression := {
  slope : Q;
  intercept : Q
}.

(** The four accumulators of the loop. *)
Record Sums := {
  sumX : Q;
  sumY : Q;
  sumXY : Q;
  sumX2 : Q
}.

Definition accumulate (s : Sums) (p : CorrelationPoint) : Sums :=
  {| sumX := sumX s + x p;
     sumY := sumY s + y p;
     sumXY := sumXY s + x p * y p;
     sumX2 := sumX2 s + x p * x p |}%Q.

Definition sums (points : list CorrelationPoint) : Sums :=
  foldl accumulate {| sumX := 0; sumY := 0; sumXY := 0; sumX2 := 0 |} points.

Definition linearRegression (points : list CorrelationPoint)
  : option Regression :=
  if (length points <? 2)%nat then None
  else
    let n := inject_Z (Z.of_nat (length points)) in
    let s := sums points in
    let denom := (n * sumX2 s - sumX s * sumX s)%Q in
    if Qeq_bool denom 0 then None
    else
      let slope := ((n * sumXY s - sumX s * sumY s) / denom)%Q in
      let intercept := ((sumY s - slope * sumX s) / n)%Q in
      Some {| slope := slope; intercept := intercept |}.

End Correlations.

(** ** Building readings for the examples *)

(** [datetime(_, _, day, h, m)] relative to day [0]. *)
Definition datetime (day h m : Z) : Z := day * 86400 + h * 3600 + m * 60.

Definition reading (day h m v : Z) : GlucoseReading :=
  {| timestamp := datetime day h m; value := v |}.

(** ** Reference notions used by the statements *)

(** The exact quotient [count / total * 100] before rounding. *)
Definition exact_percent (count total : Z) : Q :=
  (inject_Z count / inject_Z total * 100)%Q.

(** The arithmetic mean of a list of values. *)
Definition mean (vs : list Z) : Q :=
  (inject_Z (Py.sum vs) / inject_Z (Z.of_nat (length vs)))%Q.


(** [k] is [x] truncated toward zero. *)
Definition truncation_of (x : Q) (k : Z) : Prop :=
  ((0 <= x → inject_Z k <= x ∧ x < inject_Z k + 1)
   ∧ (x <= 0 → inject_Z k - 1 < x ∧ x <= inject_Z k))%Q.




(** [Σ f(p)] over the points. *)
Definition total_of (f : Correlations.CorrelationPoint → Q)
    (points : list Correlations.CorrelationPoint) : Q :=
  foldr (λ p acc, f p + acc)%Q 0%Q points.

(** The normal equations of the least-squares line [y = a x + b]:
    [a Σx² + b Σx = Σxy] and [a Σx + b n = Σy]. *)
Definition normal_equations (points : list Correlations.CorrelationPoint)
    (a b : Q) : Prop :=
  (a * total_of (λ p, Correlations.x p * Correlations.x p) points
   + b * total_of Correlations.x points
   == total_of (λ p, Correlations.x p * Correlations.y p) points
   ∧ a * total_of Correlations.x points
     + b * inject_Z (Z.of_nat (length points))
     == total_of Correlations.y points)%Q.


(** All points share one x-value (zero variance). *)
Definition all_x_equal (points : list Correlations.CorrelationPoint) : Prop :=
  ∀ p q, p ∈ points → q ∈ points → (Correlations.x p == Correlations.x q)%Q.

(** [n Σx² - (Σx)²], the denominator of the slope, and the squared distances
    of the x-values from [c]. *)
Definition denominator_of (points : list Correlations.CorrelationPoint) : Q :=
  (inject_Z (Z.of_nat (length points))
   * total_of (λ p, Correlations.x p * Correlations.x p) points
   - total_of Correlations.x points * total_of Correlations.x points)%Q.

Definition spread_from (c : Q) (points : list Correlations.CorrelationPoint)
  : Q :=
  total_of (λ p, (c - Correlations.x p) * (c - Correlations.x p))%Q points.

(** ** Example tables *)

(** The four readings of [test_get_glucose_time_in_range]. *)
Definition tir_test_db : list GlucoseReading :=
  [reading 0 8 0 60; reading 0 12 0 100; reading 0 16 0 120;
   reading 0 20 0 200].

(** One day, [00:00] to [24:00]. *)
Definition day0_start : Z := datetime 0 0 0.
Definition day0_end : Z := datetime 1 0 0.

(** Two readings on one day whose mean, 100.5, is halfway between two
    integers. *)
Definition tie_db : list GlucoseReading :=
  [reading 0 8 0 100; reading 0 12 0 101].

(** Two days with one reading each at 08:00. *)
Definition agp_db (v1 v2 : Z) : list GlucoseReading :=
  [reading 0 8 0 v1; reading 1 8 0 v2].

Definition day1_end : Z := datetime 2 0 0.

(** The profile of [agp_db v1 v2] over its two days ([[]] if the endpoint
    raised). *)
Definition agp_profile (v1 v2 : Z) : list Agp.HourlyStat :=
  default [] (Agp.get_glucose_agp (agp_db v1 v2) day0_start day1_end).

(** The 08:00 entry of [agp_profile 80 90], as in [test_get_glucose_agp]. *)
Definition agp_entry_8am : Agp.HourlyStat :=
  {| Agp.hour := 8; Agp.p10 := Some 81; Agp.p25 := Some 82;
     Agp.median := Some 85; Agp.p75 := Some 87; Agp.p90 := Some 89;
     Agp.count := 2 |}.

(** Three points on the line [y = 2 x + 1], and three points above [x = 5]. *)
Definition line_points : list Correlations.CorrelationPoint :=
  [ {| Correlations.date := "2024-01-15"; Correlations.x := 1;
       Correlations.y := 3 |};
    {| Correlations.date := "2024-01-16"; Correlations.x := 2;
       Correlations.y := 5 |};
    {| Correlations.date := "2024-01-17"; Correlations.x := 4;
       Correlations.y := 9 |} ]%Q.


(** ** The full response of the profile endpoint *)

Module AgpResponse.

Record Response := {
  start_date : Z;
  end_date : Z;
  total_readings : nat;
  hourly : list Agp.HourlyStat
}.

(** [get_glucose_agp] with its window handling.  Dates are day numbers.
    [start] is the optional query parameter, [date_range] the pair returned
    by [_date_range(start, end)] and [dt_range] the helper [_dt_range]; the
    two helpers are defined elsewhere in the router. *)
Definition get_glucose_agp (db : list GlucoseReading) (start : option Z)
    (date_range : Z * Z) (dt_range : Z → Z → Z * Z) : option Response :=
  let '(start_date, end_date) := date_range in
  let start_date :=
    match start with None => end_date - 14 | Some _ => start_date end in
  let '(start_dt, end_dt) := dt_range start_date end_date in
  let readings := query_window db start_dt end_dt in
  hourly_stats ← Agp.get_glucose_agp db start_dt end_dt;
  Some {| start_date := start_date; end_date := end_date;
          total_readings := length readings; hourly := hourly_stats |}.

End AgpResponse.

(** ** The glucose table with its [source] column *)

Module Table.

(** A row of [glucose_readings] as the import and the per-day endpoint see
    it: [source] is ["csv_import"], ["librelinkup"] or ["manual"]. *)
Record Row := {
  timestamp : Z;
  value : Z;
  source : string
}.

(** [ORDER BY timestamp] compares rows by their timestamp. *)
Definition by_timestamp (a b : Row) : Prop := timestamp a ≤ timestamp b.

#[global] Instance by_timestamp_dec : RelDecision by_timestamp :=
  λ a b, decide (timestamp a ≤ timestamp b).

Record DayReadings := {
  date : Z;
  readings : list Row
}.

(** [get_glucose_readings(date)]: the rows of one calendar day, oldest
    first.  [target_date] is the parsed [date] parameter as a day number;
    [datetime.combine(d, datetime.min.time())] is midnight of day [d]. *)
Definition get_glucose_readings (db : list Row) (target_date : Z)
  : DayReadings :=
  let start_dt := target_date * 86400 in
  let end_dt := (target_date + 1) * 86400 in
  let readings :=
    merge_sort by_timestamp
      (filter (λ r, start_dt ≤ timestamp r ∧ timestamp r < end_dt) db) in
  {| date := target_date; readings := readings |}.

End Table.

(** ** Importing readings *)

Module Upload.

Record HTTPException := {
  status_code : Z;
  detail : string
}.

Record Response := {
  readings_imported : Z;
  total_in_file : Z;
  source : string
}.

(** [str.endswith] *)
Definition endswith (s suffix : string) : bool :=
  let n := String.length s in
  let m := String.length suffix in
  (m <=? n)%nat && String.eqb (substring (n - m) m s) suffix.

(** One turn of the import loop.  [db] is the committed table and [pending]
    the rows added to the session so far.  The duplicate check is a query;
    a session configured with [autoflush] flushes [pending] before querying
    and so sees those rows too, one without it sees the committed rows
    only.  The session factory is configured elsewhere in the backend. *)
Definition import_step (autoflush : bool) (db : list Table.Row)
    (st : list Table.Row * Z) (r : Table.Row) : list Table.Row * Z :=
  let '(pending, imported) := st in
  let visible := if autoflush then db ++ pending else db in
  let existing :=
    list_find (λ x, Table.timestamp x = Table.timestamp r) visible in
  match existing with
  | Some _ => (pending, imported)
  | None => (pending ++ [r], imported + 1)
  end.

(** The loop of [upload_cgm] and of [sync_cgm], followed by
    [db.commit()]: the new table and the number of imported rows. *)
Definition import_readings (autoflush : bool) (db : list Table.Row)
    (readings : list Table.Row) : list Table.Row * Z :=
  let '(pending, imported) :=
    foldl (import_step autoflush db) ([], 0) readings in
  (db ++ pending, imported).

(** [upload_cgm]: [filename] is the name of the uploaded file and
    [readings] what [parse_cgm_csv] returned for its contents.  The result
    is the raised [HTTPException], or the new table with the response. *)
Definition upload_cgm (autoflush : bool) (filename : string)
    (readings : list Table.Row) (db : list Table.Row)
  : HTTPException + (list Table.Row * Response) :=
  if negb (endswith filename ".csv") then
    inl {| status_code := 400; detail := "File must be a CSV" |}
  else
    match readings with
    | [] =>
        inl {| status_code := 400;
               detail := "No glucose measurements found in file" |}
    | _ :: _ =>
        let '(db', imported) := import_readings autoflush db readings in
        inr (db', {| readings_imported := imported;
                     total_in_file := Z.of_nat (length readings);
                     source := "csv_import" |})
    end.

End Upload.

(** The columns of a row that the aggregating endpoints read. *)
Definition to_reading (r : Table.Row) : GlucoseReading :=
  {| timestamp := Table.timestamp r; value := Table.value r |}.

(** ** Example files *)

Definition csv_row (ts v : Z) : Table.Row :=
  {| Table.timestamp := ts; Table.value := v; Table.source := "csv_import" |}.

(** The two readings of [test_upload_cgm_csv], as seconds of their day. *)
Definition cgm_file : list Table.Row :=
  [csv_row (datetime 0 19 14 + 27) 94; csv_row (datetime 0 19 45 + 1) 79].

(** ** The correlation page *)

Module CorrelationsPage.

(** [a > b] on numbers. *)
Definition gt (a b : Q) : bool := negb (Qle_bool a b).

Record Interpretation := {
  strength : string;
  direction : string
}.

Definition interpretCorrelation (r : Q) : Interpretation :=
  let abs := Qabs r in
  let strength : string :=
    if gt abs (7 # 10) then "Strong correlation"%string
    else if gt abs (4 # 10) then "Moderate correlation"%string
    else if gt abs (2 # 10) then "Weak correlation"%string
    else "No significant correlation"%string in
  let direction : string :=
    if Qle_bool 0 r then "positive"%string else "negative"%string in
  {| strength := strength; direction := direction |}.

Definition correlationColor (r : Q) : string :=
  let abs := Qabs r in
  if gt abs (7 # 10) then "var(--success)"%string
  else if gt abs (4 # 10) then "var(--warning)"%string
  else if gt abs (2 # 10) then "var(--text-secondary)"%string
  else "var(--text-muted)"%string.

Record CorrelationResponse := {
  xMetric : string;
  yMetric : string;
  correlation : Q;
  points : list Correlations.CorrelationPoint;
  availableMetrics : list string
}.

(** [Math.min(...xs)] and [Math.max(...xs)]; [None] stands for the infinite
    value they return on no argument. *)
Definition math_min (xs : list Q) : option Q :=
  match xs with
  | [] => None
  | x0 :: rest => Some (foldl Qmin x0 rest)
  end.

Definition math_max (xs : list Q) : option Q :=
  match xs with
  | [] => None
  | x0 :: rest => Some (foldl Qmax x0 rest)
  end.

Record TrendPoint := {
  x : Q;
  y : Q
}.

(** The [trendLineData] memo; [data] is [null] until a response arrived.
    The extrema are finite because at least two points are present. *)
Definition trendLineData (data : option CorrelationResponse)
  : list TrendPoint :=
  match data with
  | None => []
  | Some data =>
      if (length (points data) <? 2)%nat then []
      else
        match Correlations.linearRegression (points data) with
        | None => []
        | Some reg =>
            let xs := Correlations.x <$> points data in
            match math_min xs, math_max xs with
            | Some minX, Some maxX =>
                [ {| x := minX;
                     y := Correlations.slope reg * minX
                          + Correlations.intercept reg |};
                  {| x := maxX;
                     y := Correlations.slope reg * maxX
                          + Correlations.intercept reg |} ]%Q
            | _, _ => []
            end
        end
  end.

End CorrelationsPage.

(** A response carrying [line_points]. *)
Definition line_response : CorrelationsPage.CorrelationResponse :=
  {| CorrelationsPage.xMetric := "sleep_score";
     CorrelationsPage.yMetric := "resting_hr";
     CorrelationsPage.correlation := 1;
     CorrelationsPage.points := line_points;
     CorrelationsPage.availableMetrics :=
       ["sleep_score"%string; "resting_hr"%string] |}.

(** ** The heart-rate page *)

Module HeartRatePage.

(** [data.filter((_, i) => keep(i))], the callback seeing the index;
    [i] is the index of the head of [data]. *)
Fixpoint filter_from {T} (keep : nat → bool) (i : nat) (data : list T)
  : list T :=
  match data with
  | [] => []
  | d :: rest =>
      (if keep i then [d] else []) ++ filter_from keep (S i) rest
  end.

(** [downsample(data, maxPoints)] for a point budget [maxPoints] that is a
    natural number.  [Math.ceil(n / maxPoints)] is infinite for a zero
    budget, and [i % Infinity] is [i]. *)
Definition downsample {T} (data : list T) (maxPoints : nat) : list T :=
  if (length data <=? maxPoints)%nat then data
  else
    let keep :=
      match maxPoints with
      | O => λ i, (i =? 0)%nat
      | S _ =>
          let factor := ((length data + maxPoints - 1) / maxPoints)%nat in
          λ i, (i mod factor =? 0)%nat
      end in
    filter_from keep 0 data.

Record Point := {
  x : Q;
  y : Q
}.

Record Line := {
  slope : Q;
  intercept : Q
}.

(** The page's own [linearRegression], which always returns a line. *)
Definition linearRegression (data : list Point) : Line :=
  let n := inject_Z (Z.of_nat (length data)) in
  if (length data <? 2)%nat then
    {| slope := 0;
       intercept := match data with d0 :: _ => y d0 | [] => 0 end |}
  else
    let sumX := foldl (λ s d, s + x d)%Q 0%Q data in
    let sumY := foldl (λ s d, s + y d)%Q 0%Q data in
    let sumXY := foldl (λ s d, s + x d * y d)%Q 0%Q data in
    let sumX2 := foldl (λ s d, s + x d * x d)%Q 0%Q data in
    let denom := (n * sumX2 - sumX * sumX)%Q in
    if Qeq_bool denom 0 then {| slope := 0; intercept := (sumY / n)%Q |}
    else
      let slope := ((n * sumXY - sumX * sumY) / denom)%Q in
      let intercept := ((sumY - slope * sumX) / n)%Q in
      {| slope := slope; intercept := intercept |}.

(** [HeartRateDaily]; a missing resting heart rate arrives as [null]. *)
Record HeartRateDaily := {
  date : string;
  restingHeartRate : option Q;
  fatBurnMinutes : Q;
  cardioMinutes : Q;
  peakMinutes : Q
}.

Record TrendRow := {
  row_date : string;
  dateLabel : string;
  restingHR : Q;
  trend : Q
}.

(** [Math.round]: nearest integer, ties upward. *)
Definition math_round (v : Q) : Z := Qfloor (v + (1 # 2)).

(** [d.restingHeartRate != null && d.restingHeartRate > 0]; a kept day is
    paired with its value. *)
Definition valid_day (d : HeartRateDaily) : option (HeartRateDaily * Q) :=
  match restingHeartRate d with
  | Some v => if Qle_bool v 0 then None else Some (d, v)
  | None => None
  end.

(** The [restingHRTrendData] memo.  [formatDateLabel] is the date-fns based
    formatter of [utils/dateFormat]. *)
Definition restingHRTrendData (formatDateLabel : string → bool → string)
    (needsYear : bool) (dailyHR : list HeartRateDaily) : list TrendRow :=
  let filtered := omap valid_day dailyHR in
  match filtered with
  | [] => []
  | _ :: _ =>
      let regression :=
        linearRegression
          (imap (λ i dv, {| x := inject_Z (Z.of_nat i); y := dv.2 |})
                filtered) in
      imap (λ i dv,
              {| row_date := date dv.1;
                 dateLabel := formatDateLabel (date dv.1) needsYear;
                 restingHR := dv.2;
                 trend :=
                   (inject_Z (math_round
                      ((slope regression * inject_Z (Z.of_nat i)
                        + intercept regression) * 10)) / 10)%Q |})
           filtered
  end.

End HeartRatePage.

(** A correlation point without its date. *)
Definition as_point (p : Correlations.CorrelationPoint)
  : HeartRatePage.Point :=
  {| HeartRatePage.x := Correlations.x p;
     HeartRatePage.y := Correlations.y p |}.

(** The points that [restingHRTrendData] regresses: day index against
    resting heart rate. *)
Definition index_points (values : list (HeartRatePage.HeartRateDaily * Q))
  : list Correlations.CorrelationPoint :=
  imap (λ i dv, {| Correlations.date := HeartRatePage.date dv.1;
                   Correlations.x := inject_Z (Z.of_nat i);
                   Correlations.y := dv.2 |}) values.

Definition hr_day (d : string) (v : option Q) : HeartRatePage.HeartRateDaily :=
  {| HeartRatePage.date := d; HeartRatePage.restingHeartRate := v;
     HeartRatePage.fatBurnMinutes := 0; HeartRatePage.cardioMinutes := 0;
     HeartRatePage.peakMinutes := 0 |}.

(** Three days, the middle one without a resting heart rate. *)
Definition hr_days : list HeartRatePage.HeartRateDaily :=
  [hr_day "2024-01-15" (Some 60%Q); hr_day "2024-01-16" None;
   hr_day "2024-01-17" (Some 62%Q)].

(** ** Glucose as a correlation metric *)

(** The pre-aggregation of [get_correlations] for ["avg_glucose"]: the
    dict [{str(g.date): round(g.avg) for g in glucose_daily}], keyed here by
    the date itself.  The query groups by date without ordering. *)
Definition glucose_by_date (db : list GlucoseReading) (start_dt end_dt : Z)
  : option (gmap Z Z) :=
  let rows := query_window db start_dt end_dt in
  glucose_daily ←
    mapM (λ d, a ← Daily.sql_avg (Daily.group_values d rows); Some (d, a))
         (Daily.group_dates rows);
  Some (list_to_map ((λ g, (g.1, Py.round g.2)) <$> glucose_daily)).

(** ** The glucose page *)

Module GlucosePage.

(** [formatHour]; the template literal prints the number in decimal. *)
Definition formatHour (hour : nat) : string :=
  if (hour =? 0)%nat then "12am"
  else if (hour =? 12)%nat then "12pm"
  else if (hour <? 12)%nat then pretty hour +:+ "am"
  else pretty (hour - 12)%nat +:+ "pm".




End GlucosePage.

(** ** The activity heatmap *)

Module ActivityPage.

Record IntradayPoint := {
  timestamp : string;
  value : Q
}.

Record HeatmapCell := {
  day : nat;
  hour : nat;
  cell_value : Q
}.

(** [Σ] of a list of numbers. *)
Definition Qsum (l : list Q) : Q := foldr Qplus 0%Q l.

(** [`${day}-${hour}`] *)
Definition bucket_key (day hour : nat) : string :=
  pretty day +:+ "-" +:+ pretty hour.

(** [x || 0] on a bucket: a missing bucket and a zero both give zero. *)
Definition or_zero (v : option Q) : Q :=
  match v with
  | Some v => if Qeq_bool v 0 then 0%Q else v
  | None => 0%Q
  end.

Section Heatmap.

(** [decode ts] is the pair [(dt.getDay(), dt.getHours())] of
    [dt = new Date(ts)], or [None] for an invalid date, whose fields are
    [NaN]. *)
Variable decode : string → option (nat * nat).

(** The weekday counted from Monday, and the hour, of a point. *)
Definition point_slot (point : IntradayPoint) : option (nat * nat) :=
  match decode (timestamp point) with
  | Some (rawDay, hour) =>
      let day := if (rawDay =? 0)%nat then 6%nat else (rawDay - 1)%nat in
      Some (day, hour)
  | None => None
  end.

Definition point_key (point : IntradayPoint) : string :=
  match point_slot point with
  | Some (day, hour) => bucket_key day hour
  | None => "NaN-NaN"
  end.

(** The body of [intradayData.forEach]. *)
Definition add_point (buckets : gmap string Q) (point : IntradayPoint)
  : gmap string Q :=
  let key := point_key point in
  <[key := (or_zero (buckets !! key) + value point)%Q]> buckets.

(** The body of the inner loop, on the pair [(cells, maxValue)]. *)
Definition scan_cell (buckets : gmap string Q) (day : nat)
    (st : list HeatmapCell * Q) (hour : nat) : list HeatmapCell * Q :=
  let '(cells, maxValue) := st in
  let value := or_zero (buckets !! bucket_key day hour) in
  let maxValue := if Qle_bool value maxValue then maxValue else value in
  (cells ++ [ {| day := day; hour := hour; cell_value := value |} ], maxValue).

Definition scan_day (buckets : gmap string Q) (st : list HeatmapCell * Q)
    (day : nat) : list HeatmapCell * Q :=
  foldl (scan_cell buckets day) st (seq 0 24).

(** The [heatmapCells] memo: the pair [(cells, maxValue)]. *)
Definition heatmapCells (intradayData : list IntradayPoint)
  : list HeatmapCell * Q :=
  let buckets := foldl add_point ∅ intradayData in
  foldl (scan_day buckets) ([], 0%Q) (seq 0 7).

End Heatmap.

End ActivityPage.

(** A decoder for the example: two timestamps, a Monday at 8 and a Sunday
    at 23; [getDay] counts from Sunday. *)
Definition example_decode (ts : string) : option (nat * nat) :=
  if String.eqb ts "mon-08" then Some (1, 8)%nat
  else if String.eqb ts "sun-23" then Some (0, 23)%nat
  else None.

Definition example_intraday : list ActivityPage.IntradayPoint :=
  [ {| ActivityPage.timestamp := "mon-08"; ActivityPage.value := 120 |};
    {| ActivityPage.timestamp := "sun-23"; ActivityPage.value := 30 |};
    {| ActivityPage.timestamp := "mon-08"; ActivityPage.value := 45 |} ]%Q.

(** ** The scenarios of the test suite *)

Example tir_scenario :
  get_glucose_time_in_range
    [reading 0 8 0 60; reading 0 12 0 100; reading 0 16 0 120; reading 0 20 0 200]
    0 86400 70 180
  = Some {| total_readings := 4; in_range_percent := 500 # 10;
            low_percent := 250 # 10; high_percent := 250 # 10;
            very_low_percent := 0 # 10; very_high_percent := 0 # 10 |}.
Proof. vm_compute. reflexivity. Qed.

Example daily_scenario :
  Daily.get_glucose_daily
    [reading 0 8 0 70; reading 0 12 0 100; reading 0 18 0 150; reading 0 22 0 80]
    0 86400
  = Some [ {| Daily.date := 0; Daily.avg := 100; Daily.min := Some 70;
              Daily.max := Some 150; Daily.count := 4 |} ].
Proof. vm_compute. reflexivity. Qed.

Example agp_scenario :
  Agp.get_glucose_agp
    [reading 0 8 0 80; reading 0 12 0 100; reading 1 8 0 90; reading 1 12 0 110]
    0 (2 * 86400) ≫= (.!! 8%nat)
  = Some {| Agp.hour := 8; Agp.p10 := Some 81; Agp.p25 := Some 82;
              Agp.median := Some 85; Agp.p75 := Some 87; Agp.p90 := Some 89;
              Agp.count := 2 |}.
Proof. vm_compute. reflexivity. Qed.

(** ** Properties of the Python arithmetic *)

Section PyFacts.

Local Open Scope Q_scope.

Lemma round_floor_bounds (x : Q) :
  (Qfloor x ≤ Py.round x ≤ Qfloor x + 1)%Z.
Proof.
  unfold Py.round.
  destruct (x - inject_Z (Qfloor x) ?= 1 # 2); [destruct (Z.even _)| |]; lia.
Qed.

(** [round] returns a nearest integer. *)
Lemma round_nearest (x : Q) :
  inject_Z (Py.round x) - (1 # 2) <= x <= inject_Z (Py.round x) + (1 # 2).
Proof.
  pose proof (Qfloor_le x) as Hlo. pose proof (Qlt_floor x) as Hhi.
  rewrite inject_Z_plus in Hhi. change (inject_Z 1) with 1 in Hhi.
  unfold Py.round.
  destruct (x - inject_Z (Qfloor x) ?= 1 # 2) eqn:Hc.
  - apply Qeq_alt in Hc.
    destruct (Z.even (Qfloor x)).
    + lra.
    + rewrite inject_Z_plus. change (inject_Z 1) with 1. lra.
  - apply Qlt_alt in Hc. lra.
  - apply Qgt_alt in Hc. rewrite inject_Z_plus. change (inject_Z 1) with 1. lra.
Qed.


Lemma round_mono (x y : Q) : x <= y → (Py.round x ≤ Py.round y)%Z.
Proof.
  intros Hxy.
  pose proof (Qfloor_resp_le _ _ Hxy) as Hf.
  destruct (Z.eq_dec (Qfloor x) (Qfloor y)) as [Heq|Hne].
  - unfold Py.round. rewrite <- Heq.
    destruct (x - inject_Z (Qfloor x) ?= 1 # 2) eqn:Hx;
      destruct (y - inject_Z (Qfloor x) ?= 1 # 2) eqn:Hy;
      try (destruct (Z.even (Qfloor x)); lia);
      try lia; exfalso;
      first [apply Qeq_alt in Hx | apply Qlt_alt in Hx | apply Qgt_alt in Hx];
      first [apply Qeq_alt in Hy | apply Qlt_alt in Hy | apply Qgt_alt in Hy];
      lra.
  - pose proof (round_floor_bounds x). pose proof (round_floor_bounds y). lia.
Qed.

Lemma tenths_le (a b : Z) : a # 10 <= b # 10 ↔ (a ≤ b)%Z.
Proof. unfold Qle; simpl. lia. Qed.

Lemma round1_mono (x y : Q) : x <= y → Py.round1 x <= Py.round1 y.
Proof.
  intros H. unfold Py.round1. apply tenths_le, round_mono. lra.
Qed.

(** An integer squeezed between rational bounds. *)
Lemma inject_Z_le_inv (k : Z) (b : Z) : inject_Z k < inject_Z b + 1 → (k ≤ b)%Z.
Proof.
  intros H. destruct (Z_le_gt_dec k b) as [|Hgt]; [done|exfalso].
  assert (inject_Z (b + 1) <= inject_Z k) as H' by (rewrite <- Zle_Qle; lia).
  rewrite inject_Z_plus in H'. change (inject_Z 1) with 1 in H'. lra.
Qed.

Lemma inject_Z_ge_inv (k : Z) (b : Z) : inject_Z b - 1 < inject_Z k → (b ≤ k)%Z.
Proof.
  intros H. destruct (Z_le_gt_dec b k) as [|Hgt]; [done|exfalso].
  assert (inject_Z (k + 1) <= inject_Z b) as H' by (rewrite <- Zle_Qle; lia).
  rewrite inject_Z_plus in H'. change (inject_Z 1) with 1 in H'. lra.
Qed.

Lemma sum_from (l : list Z) (a : Z) : fold_left Z.add l a = (a + Py.sum l)%Z.
Proof.
  unfold Py.sum. revert a.
  induction l as [|v l IH]; intros a; simpl; [lia|].
  rewrite (IH (a + v)%Z), (IH (0 + v)%Z). lia.
Qed.

Lemma sum_cons (v : Z) (l : list Z) : Py.sum (v :: l) = (v + Py.sum l)%Z.
Proof. unfold Py.sum at 1. simpl. apply sum_from. Qed.

End PyFacts.

(** ** Properties of the time-in-range counts *)

Section Counts.

Context (P : GlucoseReading → Prop) `{!∀ r, Decision (P r)}.

Lemma count_where_length (readings : list GlucoseReading) :
  count_where P readings = Z.of_nat (length (filter P readings)).
Proof.
  unfold count_where.
  induction (filter P readings) as [|r l IH]; [done|].
  rewrite fmap_cons, sum_cons, IH. simpl length. lia.
Qed.

Lemma count_where_cons (r : GlucoseReading) (readings : list GlucoseReading) :
  count_where P (r :: readings)
  = (if decide (P r) then 1 else 0) + count_where P readings.
Proof.
  rewrite !count_where_length, filter_cons.
  destruct (decide (P r)); simpl length; lia.
Qed.

Lemma count_where_bounds (readings : list GlucoseReading) :
  0 ≤ count_where P readings ≤ Z.of_nat (length readings).
Proof.
  rewrite count_where_length.
  pose proof (length_filter P readings). lia.
Qed.

End Counts.

Lemma count_where_mono (P1 P2 : GlucoseReading → Prop)
    `{!∀ r, Decision (P1 r)} `{!∀ r, Decision (P2 r)}
    (readings : list GlucoseReading) :
  (∀ r, P1 r → P2 r) → count_where P1 readings ≤ count_where P2 readings.
Proof.
  intros Himp. induction readings as [|r rs IH].
  - rewrite !count_where_length. done.
  - rewrite !count_where_cons.
    destruct (decide (P1 r)) as [H1|H1], (decide (P2 r)) as [H2|H2]; try lia.
    exfalso. auto.
Qed.

(** ** Time in range: the endpoint *)

Section TimeInRangeFacts.

Local Open Scope Q_scope.

Lemma percent_of_nonzero (count total : Z) :
  total ≠ 0%Z →
  percent_of count total = Some (Py.round1 (exact_percent count total)).
Proof.
  intros Ht. unfold percent_of, Py.truediv.
  destruct (decide (total = 0%Z)); [done|]. reflexivity.
Qed.

Lemma exact_percent_mono (c1 c2 total : Z) :
  (0 < total)%Z → (c1 ≤ c2)%Z →
  exact_percent c1 total <= exact_percent c2 total.
Proof.
  intros Ht Hc. unfold exact_percent, Qdiv.
  assert (0 < inject_Z total) as Hpos
    by (change 0 with (inject_Z 0); rewrite <- Zlt_Qlt; done).
  assert (0 <= / inject_Z total) as Hinv
    by (apply Qinv_le_0_compat; lra).
  assert (inject_Z c1 <= inject_Z c2) as Hle by (rewrite <- Zle_Qle; done).
  apply Qmult_le_compat_r; [|lra].
  apply Qmult_le_compat_r; done.
Qed.

Lemma exact_percent_partition (a b c total : Z) :
  total ≠ 0%Z → (a + b + c = total)%Z →
  exact_percent a total + exact_percent b total + exact_percent c total
  == 100.
Proof.
  intros Ht Hsum. unfold exact_percent.
  assert (¬ inject_Z total == 0) as Hnz.
  { change 0 with (inject_Z 0). rewrite inject_Z_injective. done. }
  rewrite <- Hsum in *. rewrite !inject_Z_plus in *. field. done.
Qed.


(** What the endpoint returns once at least one reading is in the window. *)
Lemma time_in_range_of_nonempty (lo hi : Z) (readings : list GlucoseReading) :
  readings ≠ [] →
  let c := tir_counts lo hi readings in
  time_in_range_of lo hi readings
  = Some {| total_readings := total c;
            in_range_percent := Py.round1 (exact_percent (in_range c) (total c));
            low_percent := Py.round1 (exact_percent (low c) (total c));
            high_percent := Py.round1 (exact_percent (high c) (total c));
            very_low_percent := Py.round1 (exact_percent (very_low c) (total c));
            very_high_percent := Py.round1 (exact_percent (very_high c) (total c)) |}.
Proof.
  intros Hne c. unfold time_in_range_of.
  destruct readings as [|r rs]; [done|]. fold c.
  assert (total c ≠ 0%Z) as Ht by (subst c; simpl; lia).
  rewrite !percent_of_nonzero by done. reflexivity.
Qed.

Lemma time_in_range_of_total (lo hi : Z) (readings : list GlucoseReading) :
  is_Some (time_in_range_of lo hi readings).
Proof.
  destruct readings as [|r rs]; [by eexists|].
  rewrite time_in_range_of_nonempty by done. by eexists.
Qed.

(** Three roundings to one decimal move a sum of [100] by at most one
    tenth. *)
Lemma rounded_partition (x y z : Q) :
  x + y + z == 100 →
  Qabs (Py.round1 x + Py.round1 y + Py.round1 z - 100) <= 1 # 10.
Proof.
  intros Hsum. unfold Py.round1.
  pose proof (round_nearest (x * 10)) as Hx.
  pose proof (round_nearest (y * 10)) as Hy.
  pose proof (round_nearest (z * 10)) as Hz.
  set (a := Py.round (x * 10)) in *.
  set (b := Py.round (y * 10)) in *.
  set (c := Py.round (z * 10)) in *.
  assert (a + b + c ≤ 1001)%Z as Hhi.
  { apply inject_Z_le_inv. rewrite !inject_Z_plus.
    change (inject_Z 1001) with 1001. lra. }
  assert (999 ≤ a + b + c)%Z as Hlo.
  { apply inject_Z_ge_inv. rewrite !inject_Z_plus.
    change (inject_Z 999) with 999. lra. }
  apply Qabs_Qle_condition.
  unfold Qle, Qplus, Qminus, Qopp; simpl. lia.
Qed.

End TimeInRangeFacts.

(** ** Time in range: the claims *)

Section TimeInRangeClaims.

Local Open Scope Q_scope.

Variables (db : list GlucoseReading) (start_dt end_dt : Z).
Variables (low_threshold high_threshold : Z).

Local Abbreviation readings := (query_window db start_dt end_dt).

(** C1 (as amended).  When the window holds at least one reading, the
    endpoint returns a breakdown whose in-range, low and high percentages
    add up to 100.0 to within 0.1, whatever the thresholds. *)
Theorem tir_percentages_sum_to_100 :
  readings ≠ [] →
  ∃ r, get_glucose_time_in_range db start_dt end_dt
         low_threshold high_threshold = Some r
     ∧ Qabs (in_range_percent r + low_percent r + high_percent r - 100)
       <= 1 # 10.
Proof.
  intros Hne. unfold get_glucose_time_in_range.
  rewrite time_in_range_of_nonempty by done.
  eexists; split; [reflexivity|]. cbn [in_range_percent low_percent high_percent].
  apply rounded_partition, exact_percent_partition.
  - destruct readings; [done|]. simpl. lia.
  - simpl. lia.
Qed.

(** C5 (as amended).  When [low_threshold] is at least 54 and
    [high_threshold] at most 250, the very-low percentage never exceeds the
    low percentage and the very-high percentage never exceeds the high
    percentage. *)
Theorem tir_very_nested_in_low_high :
  (54 ≤ low_threshold)%Z → (high_threshold ≤ 250)%Z →
  ∃ r, get_glucose_time_in_range db start_dt end_dt
         low_threshold high_threshold = Some r
     ∧ very_low_percent r <= low_percent r
     ∧ very_high_percent r <= high_percent r.
Proof.
  intros Hlo Hhi. unfold get_glucose_time_in_range.
  destruct (decide (readings = [])) as [->|Hne].
  { eexists; split; [reflexivity|]. simpl. lra. }
  rewrite time_in_range_of_nonempty by done.
  eexists; split; [reflexivity|].
  cbn [very_low_percent low_percent very_high_percent high_percent].
  assert (0 < total (tir_counts low_threshold high_threshold readings))%Z
    as Ht by (destruct readings; [done|simpl; lia]).
  split; apply round1_mono, exact_percent_mono; try done; simpl.
  - apply count_where_mono. intros r. lia.
  - apply count_where_mono. intros r. lia.
Qed.

(** C8.  The endpoint always returns a breakdown, and with no reading in
    the window that breakdown has [total_readings = 0] and every
    percentage equal to [0]: no division is attempted. *)
Theorem tir_empty_window_is_all_zero :
  is_Some (get_glucose_time_in_range db start_dt end_dt
             low_threshold high_threshold)
  ∧ (readings = [] →
     get_glucose_time_in_range db start_dt end_dt
       low_threshold high_threshold
     = Some {| total_readings := 0; in_range_percent := 0;
               low_percent := 0; high_percent := 0;
               very_low_percent := 0; very_high_percent := 0 |}).
Proof.
  split; [apply time_in_range_of_total|].
  unfold get_glucose_time_in_range. by intros ->.
Qed.

(** C4.  On the reading values [60, 100, 120, 200] with the default
    thresholds 70 and 180 the endpoint returns 50.0 in range, 25.0 low,
    25.0 high, 0.0 very low and 0.0 very high. *)
Theorem tir_scenario_default_thresholds :
  value <$> readings = [60; 100; 120; 200]%Z →
  ∃ r, get_glucose_time_in_range db start_dt end_dt
         default_low_threshold default_high_threshold = Some r
     ∧ total_readings r = 4%Z
     ∧ in_range_percent r == 50
     ∧ low_percent r == 25
     ∧ high_percent r == 25
     ∧ very_low_percent r == 0
     ∧ very_high_percent r == 0.
Proof.
  unfold get_glucose_time_in_range. intros Hvals.
  destruct readings as [|[t1 v1] [|[t2 v2] [|[t3 v3] [|[t4 v4] [|? ?]]]]];
    try discriminate Hvals.
  injection Hvals as -> -> -> ->.
  eexists; split; [vm_compute; reflexivity|]. done.
Qed.


End TimeInRangeClaims.

(** ** Time in range: concrete runs *)

Section TimeInRangeRuns.

Local Open Scope Q_scope.

(** C1 as stated fails on an empty window: the guard returns three zero
    percentages, whose sum is 0, not 100. *)
Lemma tir_sum_is_zero_without_readings :
  ∃ r, get_glucose_time_in_range [] day0_start day0_end 70 180 = Some r
     ∧ ¬ Qabs (in_range_percent r + low_percent r + high_percent r - 100)
         <= 1 # 10.
Proof.
  eexists; split; [reflexivity|]. intros H. vm_compute in H. by apply H.
Qed.

Lemma tir_percentages_sum_to_100_witness :
  query_window tir_test_db day0_start day0_end ≠ []
  ∧ ∃ r, get_glucose_time_in_range tir_test_db day0_start day0_end 70 180
         = Some r
       ∧ Qabs (in_range_percent r + low_percent r + high_percent r - 100)
         <= 1 # 10.
Proof.
  assert (query_window tir_test_db day0_start day0_end ≠ []) as H
    by (vm_compute; discriminate).
  split; [exact H|].
  exact (tir_percentages_sum_to_100 tir_test_db day0_start day0_end 70 180 H).
Defined.

(** C5 as stated fails for a low threshold under 54: the reading 52 is
    very low but not low. *)
Lemma tir_very_low_exceeds_low :
  ∃ r, get_glucose_time_in_range [reading 0 8 0 52] day0_start day0_end
         50 180 = Some r
     ∧ ¬ (very_low_percent r <= low_percent r
          ∧ very_high_percent r <= high_percent r).
Proof.
  eexists; split; [vm_compute; reflexivity|].
  intros [H _]. vm_compute in H. by apply H.
Qed.

Lemma tir_very_nested_in_low_high_witness :
  (54 ≤ 70)%Z ∧ (180 ≤ 250)%Z
  ∧ ∃ r, get_glucose_time_in_range tir_test_db day0_start day0_end 70 180
         = Some r
       ∧ very_low_percent r <= low_percent r
       ∧ very_high_percent r <= high_percent r.
Proof.
  assert (54 ≤ 70)%Z as H1 by lia.
  assert (180 ≤ 250)%Z as H2 by lia.
  split; [exact H1|]. split; [exact H2|].
  exact (tir_very_nested_in_low_high tir_test_db day0_start day0_end
           70 180 H1 H2).
Defined.

Lemma tir_empty_window_is_all_zero_witness :
  query_window [] day0_start day0_end = []
  ∧ get_glucose_time_in_range [] day0_start day0_end 70 180
    = Some {| total_readings := 0; in_range_percent := 0;
              low_percent := 0; high_percent := 0;
              very_low_percent := 0; very_high_percent := 0 |}.
Proof.
  assert (query_window [] day0_start day0_end = []) as H by reflexivity.
  split; [exact H|].
  exact (proj2 (tir_empty_window_is_all_zero [] day0_start day0_end 70 180) H).
Defined.

Lemma tir_scenario_default_thresholds_witness :
  value <$> query_window tir_test_db day0_start day0_end
  = [60; 100; 120; 200]%Z
  ∧ ∃ r, get_glucose_time_in_range tir_test_db day0_start day0_end
           default_low_threshold default_high_threshold = Some r
       ∧ total_readings r = 4%Z
       ∧ in_range_percent r == 50
       ∧ low_percent r == 25
       ∧ high_percent r == 25
       ∧ very_low_percent r == 0
       ∧ very_high_percent r == 0.
Proof.
  assert (value <$> query_window tir_test_db day0_start day0_end
          = [60; 100; 120; 200]%Z) as H by (vm_compute; reflexivity).
  split; [exact H|].
  exact (tir_scenario_default_thresholds tir_test_db day0_start day0_end H).
Defined.


End TimeInRangeRuns.

(** ** Daily summaries *)

Section DailyFacts.

Local Open Scope Q_scope.


Lemma sql_avg_mean (vs : list Z) :
  vs ≠ [] → Daily.sql_avg vs = Some (mean vs).
Proof. destruct vs; done. Qed.

Lemma summary_row_Some (rows : list GlucoseReading) (d : Z) :
  Daily.group_values d rows ≠ [] →
  ∃ row, Daily.summary_row rows d = Some row
       ∧ Daily.date row = d
       ∧ Daily.avg row = Py.round (mean (Daily.group_values d rows)).
Proof.
  intros Hne. unfold Daily.summary_row.
  rewrite sql_avg_mean by done. simpl. eauto.
Qed.

Lemma summary_row_date (rows : list GlucoseReading) (d : Z) row :
  Daily.summary_row rows d = Some row → Daily.date row = d.
Proof.
  unfold Daily.summary_row.
  destruct (Daily.sql_avg _); simpl; [|done]. by intros [= <-].
Qed.

Lemma group_values_nonempty (rows : list GlucoseReading) (d : Z) r :
  r ∈ rows → date_of (timestamp r) = d → Daily.group_values d rows ≠ [].
Proof.
  intros Hr Hd Hnil. unfold Daily.group_values in Hnil.
  apply fmap_nil_inv in Hnil.
  assert (r ∈ filter (λ r, date_of (timestamp r) = d) rows) as Hin
    by (apply list_elem_of_filter; done).
  rewrite Hnil in Hin. by apply not_elem_of_nil in Hin.
Qed.

Lemma group_dates_elem (rows : list GlucoseReading) (d : Z) :
  d ∈ Daily.group_dates rows ↔ ∃ r, r ∈ rows ∧ date_of (timestamp r) = d.
Proof.
  unfold Daily.group_dates.
  rewrite merge_sort_Permutation, elem_of_remove_dups, list_elem_of_fmap.
  split; intros (r & H1 & H2); exists r; done.
Qed.

(** The query never raises: every group it builds is non-empty. *)
Lemma get_glucose_daily_total (db : list GlucoseReading) (s e : Z) :
  ∃ rows, Daily.get_glucose_daily db s e = Some rows
        ∧ Forall2 (λ d row, Daily.summary_row (query_window db s e) d = Some row)
            (Daily.group_dates (query_window db s e)) rows.
Proof.
  unfold Daily.get_glucose_daily.
  assert (is_Some (mapM (Daily.summary_row (query_window db s e))
                     (Daily.group_dates (query_window db s e)))) as [rows Hrows].
  { apply mapM_is_Some, Forall_forall. intros d Hd.
    apply group_dates_elem in Hd as (r & Hr & Hdate).
    destruct (summary_row_Some (query_window db s e) d) as (row & Hrow & _);
      [by eapply group_values_nonempty|]. by exists row. }
  exists rows. split; [done|]. by apply mapM_Some.
Qed.

End DailyFacts.

Section DailyClaims.

Local Open Scope Q_scope.

Variables (db : list GlucoseReading) (start_dt end_dt : Z).

Local Abbreviation readings := (query_window db start_dt end_dt).


End DailyClaims.

Section DailyRuns.

Local Open Scope Q_scope.



End DailyRuns.

(** ** Truncation and linear interpolation *)

Section PercentileFacts.

Local Open Scope Q_scope.

(** [int] truncates toward zero. *)
Lemma int_truncation (x : Q) : truncation_of x (Py.int x).
Proof.
  destruct x as [n d]. unfold truncation_of, Py.int, Qle, Qlt. simpl.
  pose proof (Z.quot_rem' n (Z.pos d)) as Hqr.
  split; intros Hs.
  - assert (0 ≤ n)%Z as Hn by lia.
    pose proof (Z.rem_bound_pos n (Z.pos d) Hn ltac:(lia)). nia.
  - assert (n ≤ 0)%Z as Hn by lia.
    pose proof (Z.rem_nonpos n (Z.pos d) ltac:(lia) Hn).
    pose proof (Z.rem_bound_abs n (Z.pos d) ltac:(lia)). nia.
Qed.

Lemma int_mono (x y : Q) : x <= y → (Py.int x ≤ Py.int y)%Z.
Proof.
  intros Hxy.
  destruct (int_truncation x) as [Hx0 Hx1].
  destruct (int_truncation y) as [Hy0 Hy1].
  destruct (Qlt_le_dec x 0) as [Hx|Hx].
  - destruct (Hx1 ltac:(lra)).
    destruct (Qlt_le_dec y 0) as [Hy|Hy].
    + destruct (Hy1 ltac:(lra)). apply inject_Z_le_inv. lra.
    + destruct (Hy0 Hy).
      assert (Py.int x ≤ 0)%Z
        by (apply inject_Z_le_inv; change (inject_Z 0) with 0; lra).
      assert (0 ≤ Py.int y)%Z
        by (apply inject_Z_ge_inv; change (inject_Z 0) with 0; lra).
      lia.
  - destruct (Hx0 Hx). destruct (Hy0 ltac:(lra)). apply inject_Z_le_inv. lra.
Qed.

Lemma sorted_lookup_le (s : list Z) (i j : nat) :
  StronglySorted Z.le s → (i ≤ j)%nat → (j < length s)%nat →
  (s !!! i ≤ s !!! j)%Z.
Proof.
  intros Hs. revert i j.
  induction Hs as [|v s Hs IH Hall]; intros i j Hij Hj; simpl in Hj; [lia|].
  destruct i as [|i], j as [|j]; simpl; try lia.
  - rewrite Forall_forall in Hall. apply Hall.
    apply list_elem_of_lookup_total_2. lia.
  - apply IH; lia.
Qed.

Lemma lerp_bounds (a b t : Q) :
  a <= b → 0 <= t → t <= 1 → a <= Agp.lerp a b t ∧ Agp.lerp a b t <= b.
Proof. intros. unfold Agp.lerp. split; nra. Qed.

Lemma lerp_mono (a b t1 t2 : Q) :
  a <= b → t1 <= t2 → Agp.lerp a b t1 <= Agp.lerp a b t2.
Proof. intros. unfold Agp.lerp. nra. Qed.

(** The fractional part and the two neighbours of a virtual index inside
    the array. *)
Lemma interpolate_bounds (s : list Z) (vi : Q) :
  StronglySorted Z.le s → 0 <= vi → vi <= inject_Z (Z.of_nat (length s) - 1) →
  let previous := Z.to_nat (Qfloor vi) in
  let next := Nat.min (previous + 1) (length s - 1) in
  (previous ≤ next)%nat ∧ (next < length s)%nat
  ∧ inject_Z (s !!! previous) <= Agp.interpolate s vi
  ∧ Agp.interpolate s vi <= inject_Z (s !!! next).
Proof.
  intros Hs H0 Hn previous next.
  pose proof (Qfloor_le vi) as Hlo. pose proof (Qlt_floor vi) as Hhi.
  rewrite inject_Z_plus in Hhi. change (inject_Z 1) with 1 in Hhi.
  assert (0 ≤ Qfloor vi)%Z as Hf0.
  { apply inject_Z_ge_inv. change (inject_Z 0) with 0. lra. }
  assert (Qfloor vi ≤ Z.of_nat (length s) - 1)%Z as Hf1.
  { apply inject_Z_le_inv. lra. }
  assert (previous ≤ next)%nat by (subst previous next; lia).
  assert (next < length s)%nat by (subst previous next; lia).
  split; [done|]. split; [done|].
  unfold Agp.interpolate. fold previous. fold next.
  apply lerp_bounds; [|lra|lra].
  rewrite <- Zle_Qle. apply sorted_lookup_le; done.
Qed.

Lemma interpolate_mono (s : list Z) (v1 v2 : Q) :
  StronglySorted Z.le s → 0 <= v1 → v1 <= v2 →
  v2 <= inject_Z (Z.of_nat (length s) - 1) →
  Agp.interpolate s v1 <= Agp.interpolate s v2.
Proof.
  intros Hs H0 H12 Hn.
  destruct (interpolate_bounds s v1 Hs) as (Hp1 & Hn1 & Hl1 & Hu1); [lra..|].
  destruct (interpolate_bounds s v2 Hs) as (Hp2 & Hn2 & Hl2 & Hu2); [lra..|].
  pose proof (Qfloor_resp_le _ _ H12) as Hf.
  assert (0 ≤ Qfloor v1)%Z as Hf0.
  { pose proof (Qlt_floor v1) as Hhi.
    rewrite inject_Z_plus in Hhi. change (inject_Z 1) with 1 in Hhi.
    apply inject_Z_ge_inv. change (inject_Z 0) with 0. lra. }
  destruct (Z.eq_dec (Qfloor v1) (Qfloor v2)) as [Heq|Hne].
  - unfold Agp.interpolate in *. rewrite <- Heq in *.
    apply lerp_mono; [|lra].
    rewrite <- Zle_Qle. apply sorted_lookup_le; done.
  - eapply Qle_trans; [exact Hu1|]. eapply Qle_trans; [|exact Hl2].
    rewrite <- Zle_Qle. apply sorted_lookup_le; [done|lia|lia].
Qed.

Lemma merge_sort_sorted (arr : list Z) : StronglySorted Z.le (merge_sort Z.le arr).
Proof. apply StronglySorted_merge_sort; apply _. Qed.

Lemma merge_sort_length (arr : list Z) : length (merge_sort Z.le arr) = length arr.
Proof. by rewrite merge_sort_Permutation. Qed.

(** Percentiles grow with the requested rank. *)
Lemma percentile_mono (arr : list Z) (q1 q2 : Z) :
  arr ≠ [] → (0 ≤ q1)%Z → (q1 ≤ q2)%Z → (q2 ≤ 100)%Z →
  Agp.percentile arr q1 <= Agp.percentile arr q2.
Proof.
  intros Hne H0 H12 H100. unfold Agp.percentile.
  set (s := merge_sort Z.le arr).
  assert (0 < length s)%nat as Hlen.
  { subst s. rewrite merge_sort_length. destruct arr; [done|simpl; lia]. }
  assert (0 <= inject_Z (Z.of_nat (length s) - 1)) as Hn
    by (change 0 with (inject_Z 0); rewrite <- Zle_Qle; lia).
  assert (0 <= inject_Z q1) as Hq0
    by (change 0 with (inject_Z 0); rewrite <- Zle_Qle; lia).
  assert (inject_Z q1 <= inject_Z q2) as Hq12 by (rewrite <- Zle_Qle; lia).
  assert (inject_Z q2 <= 100) as Hq100
    by (change 100 with (inject_Z 100); rewrite <- Zle_Qle; lia).
  set (n1 := inject_Z (Z.of_nat (length s) - 1)) in *.
  assert (inject_Z q1 / 100 == inject_Z q1 * (1 # 100)) as E1 by (field).
  assert (inject_Z q2 / 100 == inject_Z q2 * (1 # 100)) as E2 by (field).
  apply interpolate_mono; [apply merge_sort_sorted|..];
    rewrite ?E1, ?E2; fold n1; nra.
Qed.

(** The percentile depends on the multiset of values only. *)
Lemma percentile_perm (arr arr' : list Z) (q : Z) :
  arr ≡ₚ arr' → Agp.percentile arr q = Agp.percentile arr' q.
Proof.
  intros Hp. unfold Agp.percentile.
  assert (merge_sort Z.le arr = merge_sort Z.le arr') as ->; [|done].
  apply (StronglySorted_unique Z.le); [apply merge_sort_sorted..|].
  by rewrite !merge_sort_Permutation.
Qed.

End PercentileFacts.

(** ** Grouping by hour of day *)

Section HourlyFacts.

Lemma hour_of_lt (ts : Z) : (hour_of ts < 24)%nat.
Proof.
  unfold hour_of.
  pose proof (Z.mod_pos_bound ts 86400 ltac:(lia)) as Hm.
  assert (0 ≤ ts mod 86400 / 3600 < 24) as Hd.
  { split; [apply Z.div_pos; lia|apply Z.div_lt_upper_bound; lia]. }
  lia.
Qed.

Lemma empty_buckets_lookup (h : nat) :
  (h < 24)%nat → Agp.empty_buckets !! h = Some [].
Proof.
  intros Hh.
  do 24 (destruct h as [|h]; [reflexivity|]). lia.
Qed.

Lemma hour_values_snoc (h : nat) (readings : list GlucoseReading) r :
  Agp.hour_values h (readings ++ [r])
  = Agp.hour_values h readings
    ++ (if decide (hour_of (timestamp r) = h) then [value r] else []).
Proof.
  unfold Agp.hour_values. rewrite filter_app, fmap_app. f_equal.
  rewrite filter_cons, filter_nil. by case_decide.
Qed.

(** The loop never meets a missing key, and leaves under each hour the
    values of that hour in query order. *)
Lemma group_by_hour_spec (readings : list GlucoseReading) :
  ∃ m : gmap nat (list Z),
    Agp.group_by_hour readings = Some m
    ∧ ∀ h, (h < 24)%nat → m !! h = Some (Agp.hour_values h readings).
Proof.
  unfold Agp.group_by_hour.
  induction readings as [|r readings IH] using rev_ind.
  - exists Agp.empty_buckets. split; [done|]. apply empty_buckets_lookup.
  - destruct IH as (m & Hm & Hlook).
    rewrite foldl_snoc, Hm. simpl. unfold Agp.add_reading.
    rewrite (Hlook _ (hour_of_lt (timestamp r))). simpl.
    eexists; split; [reflexivity|]. intros h Hh.
    rewrite hour_values_snoc.
    destruct (decide (hour_of (timestamp r) = h)) as [<-|Hne].
    + by rewrite lookup_insert_eq.
    + rewrite lookup_insert_ne by done. rewrite app_nil_r. by apply Hlook.
Qed.

(** Every hour of the day has its entry, computed from that hour's values. *)
Lemma get_glucose_agp_entries (db : list GlucoseReading) (s e : Z) :
  ∃ (stats : list Agp.HourlyStat) (m : gmap nat (list Z)),
    Agp.get_glucose_agp db s e = Some stats
    ∧ length stats = 24%nat
    ∧ ∀ h, (h < 24)%nat →
        m !! h = Some (Agp.hour_values h (query_window db s e))
        ∧ ∃ st, stats !! h = Some st ∧ Agp.hourly_stat m h = Some st.
Proof.
  unfold Agp.get_glucose_agp.
  destruct (group_by_hour_spec (query_window db s e)) as (m & -> & Hlook).
  simpl.
  assert (is_Some (mapM (Agp.hourly_stat m) (seq 0 24))) as [stats Hstats].
  { apply mapM_is_Some, Forall_forall. intros h Hh.
    apply elem_of_seq in Hh. unfold compose, Agp.hourly_stat.
    rewrite Hlook by lia. simpl. by destruct (Agp.hour_values _ _). }
  exists stats, m. split; [done|].
  apply mapM_Some in Hstats.
  split; [by rewrite <- (Forall2_length _ _ _ Hstats), length_seq|].
  intros h Hh. split; [by apply Hlook|].
  destruct (Forall2_lookup_l _ _ _ h h Hstats) as (st & Hst & Hrow);
    [by rewrite lookup_seq_lt|]. eauto.
Qed.

End HourlyFacts.

(** ** Ambulatory glucose profile: the claims *)

Section AgpClaims.

Local Open Scope Q_scope.

Variables (db : list GlucoseReading) (start_dt end_dt : Z).

Local Abbreviation readings := (query_window db start_dt end_dt).

(** An entry with a positive count belongs to an hour with observations and
    carries the five truncated percentiles of that hour's values. *)
Lemma agp_entry_with_observations stats (h : nat) st :
  Agp.get_glucose_agp db start_dt end_dt = Some stats →
  stats !! h = Some st →
  (Agp.count st > 0)%nat →
  let values := Agp.hour_values h readings in
  values ≠ []
  ∧ Agp.p10 st = Some (Py.int (Agp.percentile values 10))
  ∧ Agp.p25 st = Some (Py.int (Agp.percentile values 25))
  ∧ Agp.median st = Some (Py.int (Agp.percentile values 50))
  ∧ Agp.p75 st = Some (Py.int (Agp.percentile values 75))
  ∧ Agp.p90 st = Some (Py.int (Agp.percentile values 90)).
Proof.
  intros Hstats Hst Hcount values.
  destruct (get_glucose_agp_entries db start_dt end_dt)
    as (stats' & m & Hstats' & Hlen & Hent).
  assert (stats' = stats) as -> by congruence.
  assert (h < 24)%nat as Hh by (apply lookup_lt_Some in Hst; lia).
  destruct (Hent h Hh) as (Hm & st' & Hst' & Hrow).
  assert (st' = st) as -> by congruence.
  unfold Agp.hourly_stat in Hrow. rewrite Hm in Hrow. simpl in Hrow.
  fold values in Hrow.
  destruct values as [|v vs] eqn:Hv.
  - injection Hrow as <-. simpl in Hcount. lia.
  - injection Hrow as <-. simpl. done.
Qed.


(** C6.  For every hour entry with a positive count the five percentiles are
    ordered, [p10 <= p25 <= median <= p75 <= p90]; and when the values
    observed in that hour are 80 and 90 the median is 85. *)
Theorem agp_percentiles_are_ordered stats (h : nat) st :
  Agp.get_glucose_agp db start_dt end_dt = Some stats →
  stats !! h = Some st →
  (Agp.count st > 0)%nat →
  ∃ a b c d e : Z,
    Agp.p10 st = Some a ∧ Agp.p25 st = Some b ∧ Agp.median st = Some c
    ∧ Agp.p75 st = Some d ∧ Agp.p90 st = Some e
    ∧ (a ≤ b)%Z ∧ (b ≤ c)%Z ∧ (c ≤ d)%Z ∧ (d ≤ e)%Z
    ∧ (Agp.hour_values h readings ≡ₚ [80; 90]%Z → c = 85%Z).
Proof.
  intros Hstats Hst Hcount.
  destruct (agp_entry_with_observations _ _ _ Hstats Hst Hcount)
    as (Hne & -> & -> & -> & -> & ->).
  do 5 eexists. do 5 (split; [reflexivity|]).
  repeat split; try (apply int_mono, percentile_mono; [done|lia..]).
  intros Hp. by rewrite (percentile_perm _ _ _ Hp).
Qed.

(** C7.  Whatever the table and the window, the endpoint returns exactly 24
    entries, the entry at position [h] being the one of hour [h]; its count
    is the number of readings of that hour, and an hour without readings is
    kept, with count 0 and no percentile. *)
Theorem agp_has_24_entries_in_hour_order :
  ∃ stats,
    Agp.get_glucose_agp db start_dt end_dt = Some stats
    ∧ length stats = 24%nat
    ∧ ∀ h, (h < 24)%nat →
        ∃ st, stats !! h = Some st
            ∧ Agp.hour st = h
            ∧ Agp.count st = length (Agp.hour_values h readings)
            ∧ (Agp.hour_values h readings = [] →
                 Agp.count st = 0%nat
                 ∧ Agp.p10 st = None ∧ Agp.p25 st = None
                 ∧ Agp.median st = None
                 ∧ Agp.p75 st = None ∧ Agp.p90 st = None).
Proof.
  destruct (get_glucose_agp_entries db start_dt end_dt)
    as (stats & m & Hstats & Hlen & Hent).
  exists stats. split; [done|]. split; [done|].
  intros h Hh. destruct (Hent h Hh) as (Hm & st & Hst & Hrow).
  exists st. split; [done|].
  unfold Agp.hourly_stat in Hrow. rewrite Hm in Hrow. simpl in Hrow.
  destruct (Agp.hour_values h readings) as [|v vs].
  - injection Hrow as <-. simpl. done.
  - injection Hrow as <-. simpl. done.
Qed.

End AgpClaims.

Section AgpRuns.

Local Open Scope Q_scope.



Lemma agp_percentiles_are_ordered_witness :
  Agp.get_glucose_agp (agp_db 80 90) day0_start day1_end
  = Some (agp_profile 80 90)
  ∧ agp_profile 80 90 !! 8%nat = Some agp_entry_8am
  ∧ (Agp.count agp_entry_8am > 0)%nat
  ∧ Agp.hour_values 8 (query_window (agp_db 80 90) day0_start day1_end)
    ≡ₚ [80; 90]%Z
  ∧ ∃ c, Agp.median agp_entry_8am = Some c ∧ c = 85%Z.
Proof.
  assert (Agp.get_glucose_agp (agp_db 80 90) day0_start day1_end
          = Some (agp_profile 80 90)) as H1 by (vm_compute; reflexivity).
  assert (agp_profile 80 90 !! 8%nat = Some agp_entry_8am) as H2
    by (vm_compute; reflexivity).
  assert (Agp.count agp_entry_8am > 0)%nat as H3 by (simpl; lia).
  assert (Agp.hour_values 8 (query_window (agp_db 80 90) day0_start day1_end)
          ≡ₚ [80; 90]%Z) as H4 by (vm_compute; reflexivity).
  split; [exact H1|]. split; [exact H2|]. split; [exact H3|].
  split; [exact H4|].
  destruct (agp_percentiles_are_ordered (agp_db 80 90) day0_start day1_end
              _ _ _ H1 H2 H3)
    as (a & b & c & d & e & _ & _ & Hc & _ & _ & _ & _ & _ & _ & Hmed).
  exists c. split; [exact Hc|exact (Hmed H4)].
Defined.

Lemma agp_has_24_entries_in_hour_order_witness :
  (0 < 24)%nat
  ∧ Agp.hour_values 0 (query_window (agp_db 80 90) day0_start day1_end) = []
  ∧ ∃ stats st,
      Agp.get_glucose_agp (agp_db 80 90) day0_start day1_end = Some stats
      ∧ length stats = 24%nat
      ∧ stats !! 0%nat = Some st
      ∧ Agp.hour st = 0%nat
      ∧ Agp.count st = 0%nat
      ∧ Agp.median st = None.
Proof.
  assert (0 < 24)%nat as H1 by lia.
  assert (Agp.hour_values 0
            (query_window (agp_db 80 90) day0_start day1_end) = []) as H2
    by (vm_compute; reflexivity).
  split; [exact H1|]. split; [exact H2|].
  destruct (agp_has_24_entries_in_hour_order (agp_db 80 90)
              day0_start day1_end) as (stats & Hstats & Hlen & Hent).
  destruct (Hent 0%nat H1) as (st & Hst & Hhour & _ & Hnone).
  destruct (Hnone H2) as (Hc & _ & _ & Hm & _ & _).
  exists stats, st. done.
Defined.

End AgpRuns.

(** ** Trend line *)

Section RegressionFacts.

Local Open Scope Q_scope.

Local Abbreviation X := Correlations.x.
Local Abbreviation Y := Correlations.y.
Local Abbreviation count_of points := (inject_Z (Z.of_nat (length points))).

Implicit Types (p : Correlations.CorrelationPoint)
               (points : list Correlations.CorrelationPoint).

Lemma count_of_cons p points : count_of (p :: points) == count_of points + 1.
Proof.
  rewrite length_cons, Nat2Z.inj_succ, <- Z.add_1_r, inject_Z_plus. reflexivity.
Qed.

Lemma count_of_nonneg points : 0 <= count_of points.
Proof. change 0 with (inject_Z 0). rewrite <- Zle_Qle. lia. Qed.

Lemma square_nonneg (a : Q) : 0 <= a * a.
Proof. nra. Qed.

(** The loop accumulates the four sums. *)
Lemma sums_from (s0 : Correlations.Sums) points :
  Correlations.sumX (foldl Correlations.accumulate s0 points)
  == Correlations.sumX s0 + total_of X points
  ∧ Correlations.sumY (foldl Correlations.accumulate s0 points)
    == Correlations.sumY s0 + total_of Y points
  ∧ Correlations.sumXY (foldl Correlations.accumulate s0 points)
    == Correlations.sumXY s0 + total_of (λ p, X p * Y p) points
  ∧ Correlations.sumX2 (foldl Correlations.accumulate s0 points)
    == Correlations.sumX2 s0 + total_of (λ p, X p * X p) points.
Proof.
  revert s0. induction points as [|p points IH]; intros s0; simpl.
  - repeat split; ring.
  - destruct (IH (Correlations.accumulate s0 p)) as (-> & -> & -> & ->).
    simpl. repeat split; ring.
Qed.

Lemma sums_spec points :
  Correlations.sumX (Correlations.sums points) == total_of X points
  ∧ Correlations.sumY (Correlations.sums points) == total_of Y points
  ∧ Correlations.sumXY (Correlations.sums points)
    == total_of (λ p, X p * Y p) points
  ∧ Correlations.sumX2 (Correlations.sums points)
    == total_of (λ p, X p * X p) points.
Proof.
  unfold Correlations.sums.
  destruct (sums_from {| Correlations.sumX := 0; Correlations.sumY := 0;
                         Correlations.sumXY := 0; Correlations.sumX2 := 0 |}
              points) as (-> & -> & -> & ->).
  simpl. repeat split; ring.
Qed.

Lemma spread_from_expand (c : Q) points :
  spread_from c points
  == count_of points * c * c - 2 * c * total_of X points
     + total_of (λ p, X p * X p) points.
Proof.
  unfold spread_from. induction points as [|p points IH].
  - simpl. ring.
  - rewrite count_of_cons. simpl. rewrite IH. ring.
Qed.

Lemma denominator_of_cons p points :
  denominator_of (p :: points)
  == denominator_of points + spread_from (X p) points.
Proof.
  rewrite spread_from_expand. unfold denominator_of.
  rewrite count_of_cons. simpl. ring.
Qed.

Lemma spread_from_nonneg (c : Q) points : 0 <= spread_from c points.
Proof.
  unfold spread_from. induction points as [|p points IH]; simpl; [lra|].
  pose proof (square_nonneg (c - X p)) as Hsq. lra.
Qed.

Lemma denominator_of_nonneg points : 0 <= denominator_of points.
Proof.
  induction points as [|p points IH].
  - unfold denominator_of. simpl. lra.
  - rewrite denominator_of_cons. pose proof (spread_from_nonneg (X p) points).
    lra.
Qed.

Lemma spread_from_zero (c : Q) points :
  spread_from c points == 0 ↔ ∀ p, p ∈ points → X p == c.
Proof.
  unfold spread_from. induction points as [|p points IH]; simpl.
  - split; [intros _ q Hq; by apply not_elem_of_nil in Hq|reflexivity].
  - pose proof (spread_from_nonneg c points) as Hrest. unfold spread_from in Hrest.
    pose proof (square_nonneg (c - X p)) as Hsq.
    split.
    + intros Hz q Hq.
      assert ((c - X p) * (c - X p) == 0) as Hp by lra.
      apply elem_of_cons in Hq as [->|Hq].
      * apply Qmult_integral in Hp. destruct Hp; lra.
      * apply IH; [lra|done].
    + intros Hall.
      assert (X p == c) as Hp by (apply Hall; left).
      assert (total_of (λ p0, (c - X p0) * (c - X p0)) points == 0) as Hr
        by (apply IH; intros q Hq; apply Hall; by right).
      rewrite Hr, Hp. ring.
Qed.

(** The denominator vanishes exactly when all x-values coincide. *)
Lemma denominator_of_zero points :
  denominator_of points == 0 ↔ all_x_equal points.
Proof.
  induction points as [|p points IH].
  - split; [intros _ a b Ha; by apply not_elem_of_nil in Ha|].
    intros _. unfold denominator_of. simpl. ring.
  - rewrite denominator_of_cons.
    pose proof (denominator_of_nonneg points) as Hd.
    pose proof (spread_from_nonneg (X p) points) as Hs.
    split.
    + intros Hz.
      assert (∀ q, q ∈ points → X q == X p) as Hall
        by (apply spread_from_zero; lra).
      assert (∀ q, q ∈ p :: points → X q == X p) as Hall'.
      { intros q Hq. apply elem_of_cons in Hq as [->|Hq];
          [reflexivity|by apply Hall]. }
      intros a b Ha Hb. rewrite (Hall' a Ha), (Hall' b Hb). reflexivity.
    + intros Hall.
      assert (denominator_of points == 0) as ->.
      { apply IH. intros a b Ha Hb. apply Hall; by right. }
      assert (spread_from (X p) points == 0) as ->.
      { apply spread_from_zero. intros q Hq. apply Hall; [by right|left]. }
      ring.
Qed.


End RegressionFacts.

Section LeastSquaresAlgebra.

Local Open Scope Q_scope.

Variables (n sx sy sxy sx2 syy : Q).

Local Abbreviation denom := (n * sx2 - sx * sx).
Local Abbreviation slope_of := ((n * sxy - sx * sy) / denom).
Local Abbreviation intercept_of := ((sy - slope_of * sx) / n).

Lemma ols_solves_normal_equations :
  ¬ n == 0 → ¬ denom == 0 →
  slope_of * sx2 + intercept_of * sx == sxy
  ∧ slope_of * sx + intercept_of * n == sy.
Proof. intros Hn Hd. split; field; done. Qed.



End LeastSquaresAlgebra.

Section RegressionClaims.

Local Open Scope Q_scope.

Variable points : list Correlations.CorrelationPoint.


End RegressionClaims.

Section RegressionRuns.

Local Open Scope Q_scope.

Lemma line_points_vary : ¬ all_x_equal line_points.
Proof.
  intros H.
  assert (1 == 2) as Habs; [|discriminate Habs].
  apply (H {| Correlations.date := "2024-01-15"; Correlations.x := 1;
              Correlations.y := 3 |}
           {| Correlations.date := "2024-01-16"; Correlations.x := 2;
              Correlations.y := 5 |}).
  - left.
  - right. left.
Defined.



End RegressionRuns.

(** ** Time in range: further properties *)

Section TimeInRangeMore.

Local Open Scope Q_scope.

Lemma query_window_perm (db db' : list GlucoseReading) (s e : Z) :
  db ≡ₚ db' → query_window db s e ≡ₚ query_window db' s e.
Proof. intros Hp. unfold query_window. by rewrite Hp. Qed.

Lemma count_where_perm (P : GlucoseReading → Prop) `{!∀ r, Decision (P r)}
    (rs rs' : list GlucoseReading) :
  rs ≡ₚ rs' → count_where P rs = count_where P rs'.
Proof. intros Hp. rewrite !count_where_length. by rewrite Hp. Qed.

Lemma time_in_range_of_perm (lo hi : Z) (rs rs' : list GlucoseReading) :
  rs ≡ₚ rs' → time_in_range_of lo hi rs = time_in_range_of lo hi rs'.
Proof.
  intros Hp.
  destruct (decide (rs = [])) as [->|Hne].
  { apply Permutation_nil_l in Hp. by subst. }
  assert (rs' ≠ []) as Hne'.
  { intros ->. by apply Permutation_nil_r in Hp. }
  rewrite !time_in_range_of_nonempty by done.
  unfold tir_counts. cbn [total low high very_low very_high in_range].
  rewrite !(count_where_perm _ _ _ Hp). by rewrite (Permutation_length Hp).
Qed.

(** Two predicates that exclude each other never count more rows than
    there are. *)
Lemma count_where_disjoint (P1 P2 : GlucoseReading → Prop)
    `{!∀ r, Decision (P1 r)} `{!∀ r, Decision (P2 r)}
    (rs : list GlucoseReading) :
  (∀ r, P1 r → P2 r → False) →
  (count_where P1 rs + count_where P2 rs ≤ Z.of_nat (length rs))%Z.
Proof.
  intros Hdis. induction rs as [|r rs IH].
  - rewrite !count_where_length. simpl. lia.
  - rewrite !count_where_cons, length_cons.
    destruct (decide (P1 r)) as [H1|H1], (decide (P2 r)) as [H2|H2]; try lia.
    exfalso. eauto.
Qed.

Lemma exact_percent_range (count total : Z) :
  (0 < total)%Z → (0 ≤ count ≤ total)%Z →
  0 <= Py.round1 (exact_percent count total)
  ∧ Py.round1 (exact_percent count total) <= 100.
Proof.
  intros Ht [H0 H1].
  assert (¬ inject_Z total == 0) as Hnz.
  { change 0 with (inject_Z 0). rewrite inject_Z_injective. lia. }
  assert (exact_percent 0 total == 0) as E0
    by (unfold exact_percent; change (inject_Z 0) with 0; field; done).
  assert (exact_percent total total == 100) as E1
    by (unfold exact_percent; field; done).
  pose proof (exact_percent_mono 0 count total Ht H0) as Hlo.
  pose proof (exact_percent_mono count total total Ht H1) as Hhi.
  split.
  - apply Qle_trans with (Py.round1 0); [by vm_compute|].
    apply round1_mono. lra.
  - apply Qle_trans with (Py.round1 100); [|by vm_compute].
    apply round1_mono. lra.
Qed.

Variables (db : list GlucoseReading) (start_dt end_dt : Z).

Local Abbreviation readings := (query_window db start_dt end_dt).

(** X1.  The breakdown does not depend on the order in which the table
    yields its rows. *)
Theorem tir_row_order_is_irrelevant (db' : list GlucoseReading)
    (low_threshold high_threshold : Z) :
  db ≡ₚ db' →
  get_glucose_time_in_range db start_dt end_dt low_threshold high_threshold
  = get_glucose_time_in_range db' start_dt end_dt low_threshold high_threshold.
Proof.
  intros Hp. unfold get_glucose_time_in_range.
  by apply time_in_range_of_perm, query_window_perm.
Qed.

(** X2.  [total_readings] is the number of readings in the window; the low,
    high, very-low and very-high percentages always lie between 0 and 100,
    and so does the in-range percentage when
    [low_threshold <= high_threshold]. *)
Theorem tir_percentages_between_0_and_100 (low_threshold high_threshold : Z) :
  ∃ r, get_glucose_time_in_range db start_dt end_dt
         low_threshold high_threshold = Some r
     ∧ total_readings r = Z.of_nat (length readings)
     ∧ (0 <= low_percent r ∧ low_percent r <= 100)
     ∧ (0 <= high_percent r ∧ high_percent r <= 100)
     ∧ (0 <= very_low_percent r ∧ very_low_percent r <= 100)
     ∧ (0 <= very_high_percent r ∧ very_high_percent r <= 100)
     ∧ ((low_threshold ≤ high_threshold)%Z →
        0 <= in_range_percent r ∧ in_range_percent r <= 100).
Proof.
  unfold get_glucose_time_in_range.
  destruct (decide (readings = [])) as [->|Hne].
  { eexists; split; [reflexivity|]. simpl. split; [done|].
    do 4 (split; [split; lra|]). intros _. split; lra. }
  rewrite time_in_range_of_nonempty by done.
  eexists; split; [reflexivity|].
  cbn [total_readings in_range_percent low_percent high_percent
       very_low_percent very_high_percent].
  assert (0 < total (tir_counts low_threshold high_threshold readings))%Z
    as Ht by (destruct readings; [done|simpl; lia]).
  split; [done|].
  do 4 (split; [apply exact_percent_range; [done|apply count_where_bounds]|]).
  intros Hle. apply exact_percent_range; [done|]. simpl.
  pose proof (count_where_disjoint
                (λ r, (value r < low_threshold)%Z)
                (λ r, (value r > high_threshold)%Z) readings
                ltac:(intros r H1 H2; simpl in *; lia)).
  pose proof (count_where_bounds (λ r, (value r < low_threshold)%Z) readings).
  pose proof (count_where_bounds (λ r, (value r > high_threshold)%Z) readings).
  lia.
Qed.

(** X3.  Raising [low_threshold] never lowers the low percentage, raising
    [high_threshold] never raises the high percentage, and neither changes
    the very-low and very-high percentages or the total. *)
Theorem tir_thresholds_are_monotone (lo1 lo2 hi1 hi2 : Z) :
  (lo1 ≤ lo2)%Z → (hi1 ≤ hi2)%Z →
  ∃ r1 r2,
    get_glucose_time_in_range db start_dt end_dt lo1 hi1 = Some r1
    ∧ get_glucose_time_in_range db start_dt end_dt lo2 hi2 = Some r2
    ∧ low_percent r1 <= low_percent r2
    ∧ high_percent r2 <= high_percent r1
    ∧ very_low_percent r1 = very_low_percent r2
    ∧ very_high_percent r1 = very_high_percent r2
    ∧ total_readings r1 = total_readings r2.
Proof.
  intros Hlo Hhi. unfold get_glucose_time_in_range.
  destruct (decide (readings = [])) as [->|Hne].
  { do 2 eexists. split; [reflexivity|]. split; [reflexivity|].
    simpl. split; [lra|]. split; [lra|]. done. }
  rewrite !time_in_range_of_nonempty by done.
  do 2 eexists. split; [reflexivity|]. split; [reflexivity|].
  cbn [total_readings low_percent high_percent very_low_percent
       very_high_percent].
  assert (0 < Z.of_nat (length readings))%Z as Ht
    by (destruct readings; [done|simpl; lia]).
  split; [|split; [|done]]; apply round1_mono, exact_percent_mono;
    try done; simpl; apply count_where_mono; intros r; lia.
Qed.

End TimeInRangeMore.

Section TimeInRangeMoreRuns.

Local Open Scope Q_scope.

Lemma tir_row_order_is_irrelevant_witness :
  tir_test_db ≡ₚ reverse tir_test_db
  ∧ get_glucose_time_in_range tir_test_db day0_start day0_end 70 180
    = get_glucose_time_in_range (reverse tir_test_db) day0_start day0_end
        70 180.
Proof.
  assert (tir_test_db ≡ₚ reverse tir_test_db) as H
    by (symmetry; apply reverse_Permutation).
  split; [exact H|].
  exact (tir_row_order_is_irrelevant tir_test_db day0_start day0_end
           (reverse tir_test_db) 70 180 H).
Defined.

Lemma tir_percentages_between_0_and_100_witness :
  (70 ≤ 180)%Z
  ∧ ∃ r, get_glucose_time_in_range tir_test_db day0_start day0_end 70 180
         = Some r
       ∧ 0 <= in_range_percent r ∧ in_range_percent r <= 100.
Proof.
  assert (70 ≤ 180)%Z as H by lia.
  split; [exact H|].
  destruct (tir_percentages_between_0_and_100 tir_test_db day0_start day0_end
              70 180) as (r & Hr & _ & _ & _ & _ & _ & Hin).
  exists r. split; [exact Hr|]. exact (Hin H).
Defined.

Lemma tir_thresholds_are_monotone_witness :
  (70 ≤ 110)%Z ∧ (110 ≤ 180)%Z
  ∧ ∃ r1 r2,
      get_glucose_time_in_range tir_test_db day0_start day0_end 70 110
      = Some r1
      ∧ get_glucose_time_in_range tir_test_db day0_start day0_end 110 180
        = Some r2
      ∧ low_percent r1 <= low_percent r2
      ∧ high_percent r2 <= high_percent r1.
Proof.
  assert (70 ≤ 110)%Z as H1 by lia.
  assert (110 ≤ 180)%Z as H2 by lia.
  split; [exact H1|]. split; [exact H2|].
  destruct (tir_thresholds_are_monotone tir_test_db day0_start day0_end
              70 110 110 180 H1 H2)
    as (r1 & r2 & Hr1 & Hr2 & Hl & Hh & _).
  exists r1, r2. done.
Defined.

End TimeInRangeMoreRuns.

(** ** Counting by key *)

Section PartitionByKey.

Context {A K : Type} `{!EqDecision K} (key : A → K).

Lemma sum_list_indicator (k0 : K) (ks : list K) :
  NoDup ks →
  sum_list ((λ k, if decide (k0 = k) then 1 else 0)%nat <$> ks)
  = (if decide (k0 ∈ ks) then 1 else 0)%nat.
Proof.
  induction 1 as [|k ks Hk Hnd IH]; [done|].
  rewrite fmap_cons. simpl. rewrite IH.
  destruct (decide (k0 = k)) as [->|Hne].
  - rewrite decide_False by done. rewrite decide_True by left. done.
  - destruct (decide (k0 ∈ ks)) as [Hin|Hnin].
    + rewrite decide_True by (by right). done.
    + rewrite decide_False; [done|]. intros [?|?]%elem_of_cons; done.
Qed.

Lemma sum_list_plus {B} (f g : B → nat) (l : list B) :
  sum_list ((λ x, f x + g x)%nat <$> l)
  = (sum_list (f <$> l) + sum_list (g <$> l))%nat.
Proof.
  induction l as [|x l IH]; [done|].
  rewrite !fmap_cons. cbn [sum_list_with]. unfold id at 1 3 5. lia.
Qed.

(** Splitting a list by the value of a key loses and duplicates nothing. *)
Lemma length_partition_by_key (ks : list K) (l : list A) :
  NoDup ks → (∀ x, x ∈ l → key x ∈ ks) →
  sum_list ((λ k, length (filter (λ x, key x = k) l)) <$> ks) = length l.
Proof.
  intros Hnd. induction l as [|x l IH]; intros Hcov.
  - clear. simpl. induction ks as [|k ks IHk]; [done|]. simpl. apply IHk.
  - transitivity
      (sum_list ((λ k, (if decide (key x = k) then 1 else 0)
                       + length (filter (λ x, key x = k) l))%nat <$> ks)).
    { f_equal. apply list_fmap_ext. intros _ k _. rewrite filter_cons.
      by destruct (decide (key x = k)). }
    rewrite sum_list_plus, sum_list_indicator by done.
    rewrite decide_True by (apply Hcov; left).
    rewrite IH by (intros y Hy; apply Hcov; by right). done.
Qed.

End PartitionByKey.

(** ** Daily summaries: further properties *)

Section DailyMore.

Local Open Scope Q_scope.


Lemma sum_perm (l l' : list Z) : l ≡ₚ l' → Py.sum l = Py.sum l'.
Proof.
  induction 1 as [|v l l' _ IH|v w l|l l' l'' _ IH1 _ IH2];
    rewrite ?sum_cons; [done|by rewrite IH|lia|congruence].
Qed.

Lemma sum_of_nat {B} (f : B → nat) (l : list B) :
  Py.sum ((λ x, Z.of_nat (f x)) <$> l) = Z.of_nat (sum_list (f <$> l)).
Proof.
  induction l as [|x l IH]; [done|].
  rewrite !fmap_cons, sum_cons, IH. simpl. lia.
Qed.



Lemma fold_min_spec (l : list Z) (a : Z) :
  fold_left Z.min l a ∈ a :: l
  ∧ ∀ v, v ∈ a :: l → (fold_left Z.min l a ≤ v)%Z.
Proof.
  revert a. induction l as [|w l IH]; intros a; simpl.
  - split; [left|]. intros v Hv. apply list_elem_of_singleton in Hv. lia.
  - destruct (IH (Z.min a w)) as [Hin Hle]. split.
    + apply elem_of_cons in Hin as [Heq|Hin].
      * rewrite Heq. destruct (Z.min_spec a w) as [[_ ->]|[_ ->]];
          [left|right; left].
      * right. by right.
    + intros v Hv.
      pose proof (Hle (Z.min a w) ltac:(left)) as Hm.
      apply elem_of_cons in Hv as [->|Hv]; [lia|].
      apply elem_of_cons in Hv as [->|Hv]; [lia|].
      apply Hle. by right.
Qed.

Lemma fold_max_spec (l : list Z) (a : Z) :
  fold_left Z.max l a ∈ a :: l
  ∧ ∀ v, v ∈ a :: l → (v ≤ fold_left Z.max l a)%Z.
Proof.
  revert a. induction l as [|w l IH]; intros a; simpl.
  - split; [left|]. intros v Hv. apply list_elem_of_singleton in Hv. lia.
  - destruct (IH (Z.max a w)) as [Hin Hle]. split.
    + apply elem_of_cons in Hin as [Heq|Hin].
      * rewrite Heq. destruct (Z.max_spec a w) as [[_ ->]|[_ ->]];
          [right; left|left].
      * right. by right.
    + intros v Hv.
      pose proof (Hle (Z.max a w) ltac:(left)) as Hm.
      apply elem_of_cons in Hv as [->|Hv]; [lia|].
      apply elem_of_cons in Hv as [->|Hv]; [lia|].
      apply Hle. by right.
Qed.

Lemma sql_min_spec (vs : list Z) :
  vs ≠ [] →
  ∃ m, Daily.sql_min vs = Some m ∧ m ∈ vs ∧ ∀ v, v ∈ vs → (m ≤ v)%Z.
Proof.
  destruct vs as [|a l]; [done|]. intros _. eexists; split; [reflexivity|].
  apply fold_min_spec.
Qed.

Lemma sql_max_spec (vs : list Z) :
  vs ≠ [] →
  ∃ m, Daily.sql_max vs = Some m ∧ m ∈ vs ∧ ∀ v, v ∈ vs → (v ≤ m)%Z.
Proof.
  destruct vs as [|a l]; [done|]. intros _. eexists; split; [reflexivity|].
  apply fold_max_spec.
Qed.

Lemma sql_min_perm (vs vs' : list Z) :
  vs ≡ₚ vs' → Daily.sql_min vs = Daily.sql_min vs'.
Proof.
  intros Hp. destruct (decide (vs = [])) as [->|Hne].
  { apply Permutation_nil_l in Hp. by subst. }
  assert (vs' ≠ []) as Hne' by (intros ->; by apply Permutation_nil_r in Hp).
  destruct (sql_min_spec vs Hne) as (m & -> & Hin & Hle).
  destruct (sql_min_spec vs' Hne') as (m' & -> & Hin' & Hle').
  f_equal. apply Z.le_antisymm.
  - apply Hle. by rewrite Hp.
  - apply Hle'. by rewrite <- Hp.
Qed.

Lemma sql_max_perm (vs vs' : list Z) :
  vs ≡ₚ vs' → Daily.sql_max vs = Daily.sql_max vs'.
Proof.
  intros Hp. destruct (decide (vs = [])) as [->|Hne].
  { apply Permutation_nil_l in Hp. by subst. }
  assert (vs' ≠ []) as Hne' by (intros ->; by apply Permutation_nil_r in Hp).
  destruct (sql_max_spec vs Hne) as (m & -> & Hin & Hle).
  destruct (sql_max_spec vs' Hne') as (m' & -> & Hin' & Hle').
  f_equal. apply Z.le_antisymm.
  - apply Hle'. by rewrite <- Hp.
  - apply Hle. by rewrite Hp.
Qed.

Lemma sql_avg_perm (vs vs' : list Z) :
  vs ≡ₚ vs' → Daily.sql_avg vs = Daily.sql_avg vs'.
Proof.
  intros Hp. destruct (decide (vs = [])) as [->|Hne].
  { apply Permutation_nil_l in Hp. by subst. }
  assert (vs' ≠ []) as Hne' by (intros ->; by apply Permutation_nil_r in Hp).
  rewrite !sql_avg_mean by done. unfold mean.
  by rewrite (sum_perm _ _ Hp), (Permutation_length Hp).
Qed.

Lemma group_values_perm (d : Z) (rows rows' : list GlucoseReading) :
  rows ≡ₚ rows' → Daily.group_values d rows ≡ₚ Daily.group_values d rows'.
Proof. intros Hp. unfold Daily.group_values. by rewrite Hp. Qed.

Lemma summary_row_perm (rows rows' : list GlucoseReading) (d : Z) :
  rows ≡ₚ rows' → Daily.summary_row rows d = Daily.summary_row rows' d.
Proof.
  intros Hp. unfold Daily.summary_row.
  pose proof (group_values_perm d _ _ Hp) as Hg.
  rewrite (sql_avg_perm _ _ Hg), (sql_min_perm _ _ Hg), (sql_max_perm _ _ Hg),
    (Permutation_length Hg). done.
Qed.

Lemma group_dates_sorted (rows : list GlucoseReading) :
  StronglySorted Z.le (Daily.group_dates rows).
Proof. apply merge_sort_sorted. Qed.

Lemma group_dates_NoDup (rows : list GlucoseReading) :
  NoDup (Daily.group_dates rows).
Proof.
  unfold Daily.group_dates. rewrite merge_sort_Permutation.
  apply NoDup_remove_dups.
Qed.

Lemma group_dates_perm (rows rows' : list GlucoseReading) :
  rows ≡ₚ rows' → Daily.group_dates rows = Daily.group_dates rows'.
Proof.
  intros Hp.
  apply (StronglySorted_unique Z.le); [apply group_dates_sorted..|].
  apply NoDup_Permutation; [apply group_dates_NoDup..|].
  intros d. rewrite !group_dates_elem.
  split; intros (r & Hr & Hd); exists r; split; try done.
  - by rewrite <- Hp.
  - by rewrite Hp.
Qed.

Lemma sorted_NoDup_strict (l : list Z) :
  StronglySorted Z.le l → NoDup l → StronglySorted Z.lt l.
Proof.
  induction 1 as [|a l Hs IH Hall]; intros Hnd; [constructor|].
  apply NoDup_cons in Hnd as [Hnin Hnd].
  constructor; [by apply IH|].
  rewrite Forall_forall in Hall |- *. intros b Hb.
  pose proof (Hall b Hb).
  assert (a ≠ b) by (intros ->; done). lia.
Qed.

Lemma daily_rows_dates (rows : list GlucoseReading)
    (ds : list Z) (out : list Daily.DailySummary) :
  Forall2 (λ d row, Daily.summary_row rows d = Some row) ds out →
  Daily.date <$> out = ds
  ∧ Daily.count <$> out
    = (λ d, Z.of_nat (length (Daily.group_values d rows))) <$> ds.
Proof.
  induction 1 as [|d row ds out Hrow _ [IH1 IH2]]; [done|].
  rewrite !fmap_cons, IH1, IH2.
  unfold Daily.summary_row in Hrow.
  destruct (Daily.sql_avg _); simpl in Hrow; [|done].
  injection Hrow as <-. done.
Qed.

End DailyMore.

Section DailyMoreClaims.

Local Open Scope Q_scope.

Variables (db : list GlucoseReading) (start_dt end_dt : Z).

Local Abbreviation readings := (query_window db start_dt end_dt).

(** X4.  The summaries come in strictly ascending date order, one per date
    that has a reading in the window and none for any other date; each has
    a count of at least one, equal to the number of readings of its date;
    and the list is empty exactly when the window holds no reading. *)
Theorem daily_rows_ascending_without_gaps :
  ∃ rows,
    Daily.get_glucose_daily db start_dt end_dt = Some rows
    ∧ StronglySorted Z.lt (Daily.date <$> rows)
    ∧ (∀ d, d ∈ Daily.date <$> rows
            ↔ ∃ r, r ∈ readings ∧ date_of (timestamp r) = d)
    ∧ (∀ row, row ∈ rows →
         (1 ≤ Daily.count row)%Z
         ∧ Daily.count row
           = Z.of_nat (length (filter (λ r, date_of (timestamp r)
                                            = Daily.date row) readings)))
    ∧ (rows = [] ↔ readings = []).
Proof.
  destruct (get_glucose_daily_total db start_dt end_dt) as (rows & Hrows & Hall).
  destruct (daily_rows_dates _ _ _ Hall) as [Hdates Hcounts].
  exists rows. split; [done|]. rewrite Hdates.
  split; [apply sorted_NoDup_strict;
          [apply group_dates_sorted|apply group_dates_NoDup]|].
  split; [apply group_dates_elem|]. split.
  - intros row Hin. apply list_elem_of_lookup in Hin as [i Hi].
    destruct (Forall2_lookup_r _ _ _ _ _ Hall Hi) as (d & Hd & Hrow).
    assert (d ∈ Daily.group_dates readings) as Hdin
      by (by eapply list_elem_of_lookup_2).
    apply group_dates_elem in Hdin as (r & Hr & Hrd).
    pose proof (group_values_nonempty _ _ _ Hr Hrd) as Hne.
    unfold Daily.summary_row in Hrow.
    destruct (Daily.sql_avg _); simpl in Hrow; [|done].
    injection Hrow as <-. simpl.
    unfold Daily.group_values in *. rewrite length_fmap in *.
    split; [|done].
    destruct (filter _ readings); [done|simpl; lia].
  - split.
    + intros ->. destruct readings as [|r rs] eqn:E; [done|exfalso].
      assert (date_of (timestamp r) ∈ Daily.group_dates (r :: rs)) as Hin
        by (apply group_dates_elem; exists r; split; [left|done]).
      rewrite <- Hdates in Hin. by apply not_elem_of_nil in Hin.
    + intros E. rewrite E in Hdates. by destruct rows.
Qed.


(** X6.  The counts of the summaries add up to the number of readings in
    the window: every reading is counted on exactly one date. *)
Theorem daily_counts_add_up :
  ∃ rows,
    Daily.get_glucose_daily db start_dt end_dt = Some rows
    ∧ Py.sum (Daily.count <$> rows) = Z.of_nat (length readings).
Proof.
  destruct (get_glucose_daily_total db start_dt end_dt) as (rows & Hrows & Hall).
  destruct (daily_rows_dates _ _ _ Hall) as [_ Hcounts].
  exists rows. split; [done|]. rewrite Hcounts.
  rewrite (sum_of_nat (λ d, length (Daily.group_values d readings))).
  f_equal. unfold Daily.group_values.
  erewrite list_fmap_ext; [|intros ? d _; apply length_fmap].
  apply (length_partition_by_key (λ r, date_of (timestamp r)));
    [apply group_dates_NoDup|].
  intros r Hr. apply group_dates_elem. eauto.
Qed.

(** X7.  The summaries do not depend on the order in which the table yields
    its rows. *)
Theorem daily_row_order_is_irrelevant (db' : list GlucoseReading) :
  db ≡ₚ db' →
  Daily.get_glucose_daily db start_dt end_dt
  = Daily.get_glucose_daily db' start_dt end_dt.
Proof.
  intros Hp. unfold Daily.get_glucose_daily.
  pose proof (query_window_perm _ _ start_dt end_dt Hp) as Hw.
  rewrite (group_dates_perm _ _ Hw).
  apply mapM_ext. intros d. by apply summary_row_perm.
Qed.

End DailyMoreClaims.

Section DailyMoreRuns.


Lemma daily_rows_ascending_without_gaps_witness :
  query_window (agp_db 80 90) day0_start day1_end ≠ []
  ∧ ∃ rows,
      Daily.get_glucose_daily (agp_db 80 90) day0_start day1_end = Some rows
      ∧ StronglySorted Z.lt (Daily.date <$> rows)
      ∧ rows ≠ [].
Proof.
  assert (query_window (agp_db 80 90) day0_start day1_end ≠ []) as H
    by (vm_compute; discriminate).
  split; [exact H|].
  destruct (daily_rows_ascending_without_gaps (agp_db 80 90)
              day0_start day1_end) as (rows & Hrows & Hs & _ & _ & Hempty).
  exists rows. split; [exact Hrows|]. split; [exact Hs|].
  intros E. exact (H (proj1 Hempty E)).
Defined.

Lemma daily_row_order_is_irrelevant_witness :
  tie_db ≡ₚ reverse tie_db
  ∧ Daily.get_glucose_daily tie_db day0_start day0_end
    = Daily.get_glucose_daily (reverse tie_db) day0_start day0_end.
Proof.
  assert (tie_db ≡ₚ reverse tie_db) as H
    by (symmetry; apply reverse_Permutation).
  split; [exact H|].
  exact (daily_row_order_is_irrelevant tie_db day0_start day0_end
           (reverse tie_db) H).
Defined.

End DailyMoreRuns.

(** ** Ambulatory glucose profile: further properties *)

Section AgpMore.

Local Open Scope Q_scope.

Lemma int_inject_Z (k : Z) : Py.int (inject_Z k) = k.
Proof. unfold Py.int. simpl. apply Z.quot_1_r. Qed.

Lemma int_between (lo hi : Z) (x : Q) :
  inject_Z lo <= x → x <= inject_Z hi → (lo ≤ Py.int x ≤ hi)%Z.
Proof.
  intros Hl Hh. split.
  - rewrite <- (int_inject_Z lo) at 1. by apply int_mono.
  - rewrite <- (int_inject_Z hi) at 1. by apply int_mono.
Qed.

(** Interpolation never leaves the range of the data. *)
Lemma percentile_between (arr : list Z) (q lo hi : Z) :
  arr ≠ [] → (0 ≤ q ≤ 100)%Z →
  (∀ v, v ∈ arr → (lo ≤ v ≤ hi)%Z) →
  inject_Z lo <= Agp.percentile arr q ∧ Agp.percentile arr q <= inject_Z hi.
Proof.
  intros Hne [Hq0 Hq1] Hb. unfold Agp.percentile.
  set (s := merge_sort Z.le arr).
  assert (0 < length s)%nat as Hlen.
  { subst s. rewrite merge_sort_length. destruct arr; [done|simpl; lia]. }
  assert (∀ i, (i < length s)%nat → (lo ≤ s !!! i ≤ hi)%Z) as Hs.
  { intros i Hi. apply Hb. rewrite <- (merge_sort_Permutation Z.le arr).
    by apply list_elem_of_lookup_total_2. }
  set (n1 := inject_Z (Z.of_nat (length s) - 1)).
  assert (0 <= n1) as Hn
    by (subst n1; change 0 with (inject_Z 0); rewrite <- Zle_Qle; lia).
  assert (0 <= inject_Z q) as Hq0'
    by (change 0 with (inject_Z 0); rewrite <- Zle_Qle; lia).
  assert (inject_Z q <= 100) as Hq1'
    by (change 100 with (inject_Z 100); rewrite <- Zle_Qle; lia).
  assert (inject_Z q / 100 == inject_Z q * (1 # 100)) as E by field.
  destruct (interpolate_bounds s (n1 * (inject_Z q / 100)))
    as (Hp & Hnx & Hl & Hu).
  { apply merge_sort_sorted. }
  { rewrite E. nra. }
  { rewrite E. fold n1. nra. }
  pose proof (Hs _ (Nat.le_lt_trans _ _ _ Hp Hnx)) as [Hlo _].
  pose proof (Hs _ Hnx) as [_ Hhi].
  rewrite Zle_Qle in Hlo, Hhi. split; lra.
Qed.

Lemma int_percentile_between (arr : list Z) (q lo hi : Z) :
  arr ≠ [] → (0 ≤ q ≤ 100)%Z →
  (∀ v, v ∈ arr → (lo ≤ v ≤ hi)%Z) →
  (lo ≤ Py.int (Agp.percentile arr q) ≤ hi)%Z.
Proof.
  intros Hne Hq Hb.
  destruct (percentile_between arr q lo hi Hne Hq Hb).
  by apply int_between.
Qed.

(** An entry depends on the values of its hour only, and not on their
    order. *)
Lemma hourly_stat_perm (m m' : gmap nat (list Z)) (h : nat) (vs vs' : list Z) :
  m !! h = Some vs → m' !! h = Some vs' → vs ≡ₚ vs' →
  Agp.hourly_stat m h = Agp.hourly_stat m' h.
Proof.
  intros Hm Hm' Hp. unfold Agp.hourly_stat. rewrite Hm, Hm'. simpl.
  destruct vs as [|v vs], vs' as [|v' vs']; [done| | |].
  - by apply Permutation_nil_l in Hp.
  - by apply Permutation_nil_r in Hp.
  - rewrite !(percentile_perm _ _ _ Hp), (Permutation_length Hp). done.
Qed.

Lemma hour_values_perm (h : nat) (rs rs' : list GlucoseReading) :
  rs ≡ₚ rs' → Agp.hour_values h rs ≡ₚ Agp.hour_values h rs'.
Proof. intros Hp. unfold Agp.hour_values. by rewrite Hp. Qed.

Lemma agp_entry_count (db : list GlucoseReading) (s e : Z) stats :
  Agp.get_glucose_agp db s e = Some stats →
  Agp.count <$> stats
  = (λ h, length (filter (λ r, hour_of (timestamp r) = h)
                    (query_window db s e))) <$> seq 0 24.
Proof.
  intros Hstats.
  destruct (get_glucose_agp_entries db s e) as (stats' & m & Hstats' & Hlen & Hent).
  assert (stats' = stats) as -> by congruence.
  apply list_eq. intros i. rewrite !list_lookup_fmap.
  destruct (decide (i < 24)%nat) as [Hi|Hi].
  - destruct (Hent i Hi) as (Hm & st & Hst & Hrow).
    rewrite Hst, lookup_seq_lt by done. simpl. f_equal.
    unfold Agp.hourly_stat in Hrow. rewrite Hm in Hrow. simpl in Hrow.
    unfold Agp.hour_values in Hrow.
    destruct (value <$> filter _ _) as [|v vs] eqn:E;
      injection Hrow as <-; simpl;
      apply (f_equal length) in E; rewrite length_fmap in E; done.
  - rewrite lookup_seq_ge by lia.
    rewrite (lookup_ge_None_2 stats) by lia. done.
Qed.

Variables (db : list GlucoseReading) (start_dt end_dt : Z).

Local Abbreviation readings := (query_window db start_dt end_dt).

(** X8.  The hourly profile does not depend on the order in which the table
    yields its rows. *)
Theorem agp_row_order_is_irrelevant (db' : list GlucoseReading) :
  db ≡ₚ db' →
  Agp.get_glucose_agp db start_dt end_dt
  = Agp.get_glucose_agp db' start_dt end_dt.
Proof.
  intros Hp.
  destruct (get_glucose_agp_entries db start_dt end_dt)
    as (stats & m & -> & Hlen & Hent).
  destruct (get_glucose_agp_entries db' start_dt end_dt)
    as (stats' & m' & -> & Hlen' & Hent').
  f_equal. apply list_eq. intros i.
  destruct (decide (i < 24)%nat) as [Hi|Hi].
  - destruct (Hent i Hi) as (Hm & st & -> & Hrow).
    destruct (Hent' i Hi) as (Hm' & st' & -> & Hrow').
    rewrite <- Hrow, <- Hrow'.
    eapply hourly_stat_perm; [done..|].
    by apply hour_values_perm, query_window_perm.
  - rewrite !lookup_ge_None_2 by lia. done.
Qed.

(** X9.  Every percentile of an hour with observations lies between the
    smallest and the largest value observed in that hour. *)
Theorem agp_percentiles_within_observed_range stats (h : nat) st (lo hi : Z) :
  Agp.get_glucose_agp db start_dt end_dt = Some stats →
  stats !! h = Some st →
  (Agp.count st > 0)%nat →
  (∀ v, v ∈ Agp.hour_values h readings → (lo ≤ v ≤ hi)%Z) →
  ∃ a b c d e : Z,
    Agp.p10 st = Some a ∧ Agp.p25 st = Some b ∧ Agp.median st = Some c
    ∧ Agp.p75 st = Some d ∧ Agp.p90 st = Some e
    ∧ (lo ≤ a ≤ hi)%Z ∧ (lo ≤ b ≤ hi)%Z ∧ (lo ≤ c ≤ hi)%Z
    ∧ (lo ≤ d ≤ hi)%Z ∧ (lo ≤ e ≤ hi)%Z.
Proof.
  intros Hstats Hst Hcount Hb.
  destruct (agp_entry_with_observations _ _ _ _ _ _ Hstats Hst Hcount)
    as (Hne & -> & -> & -> & -> & ->).
  do 5 eexists. do 5 (split; [reflexivity|]).
  do 4 (split; [apply int_percentile_between; [done|lia|done]|]).
  apply int_percentile_between; [done|lia|done].
Qed.

End AgpMore.

Section AgpResponseFacts.

Variables (db : list GlucoseReading) (start : option Z).
Variables (date_range : Z * Z) (dt_range : Z → Z → Z * Z).

(** X10.  The endpoint always answers; the 24 hourly counts add up to
    [total_readings], so every reading of the window is counted in exactly
    one hour; and without a [start] parameter the reported window starts 14
    days before its end. *)
Theorem agp_counts_add_up_to_total :
  ∃ resp,
    AgpResponse.get_glucose_agp db start date_range dt_range = Some resp
    ∧ length (AgpResponse.hourly resp) = 24%nat
    ∧ sum_list (Agp.count <$> AgpResponse.hourly resp)
      = AgpResponse.total_readings resp
    ∧ AgpResponse.end_date resp = date_range.2
    ∧ (start = None →
       AgpResponse.start_date resp = AgpResponse.end_date resp - 14).
Proof.
  unfold AgpResponse.get_glucose_agp.
  destruct date_range as [sd ed].
  destruct (dt_range _ ed) as [s e] eqn:Hdt.
  destruct (get_glucose_agp_entries db s e) as (stats & m & Hstats & Hlen & _).
  rewrite Hstats. simpl. eexists; split; [reflexivity|]. simpl.
  split; [done|]. split; [|split; [done|by intros ->]].
  rewrite (agp_entry_count _ _ _ _ Hstats).
  apply (length_partition_by_key (λ r, hour_of (timestamp r)));
    [apply NoDup_seq|].
  intros r _. apply elem_of_seq. pose proof (hour_of_lt (timestamp r)). lia.
Qed.

End AgpResponseFacts.

Section AgpMoreRuns.

Lemma agp_row_order_is_irrelevant_witness :
  agp_db 80 90 ≡ₚ reverse (agp_db 80 90)
  ∧ Agp.get_glucose_agp (agp_db 80 90) day0_start day1_end
    = Agp.get_glucose_agp (reverse (agp_db 80 90)) day0_start day1_end.
Proof.
  assert (agp_db 80 90 ≡ₚ reverse (agp_db 80 90)) as H
    by (symmetry; apply reverse_Permutation).
  split; [exact H|].
  exact (agp_row_order_is_irrelevant (agp_db 80 90) day0_start day1_end
           (reverse (agp_db 80 90)) H).
Defined.

Lemma agp_percentiles_within_observed_range_witness :
  Agp.get_glucose_agp (agp_db 80 90) day0_start day1_end
  = Some (agp_profile 80 90)
  ∧ agp_profile 80 90 !! 8%nat = Some agp_entry_8am
  ∧ (Agp.count agp_entry_8am > 0)%nat
  ∧ (∀ v, v ∈ Agp.hour_values 8
                (query_window (agp_db 80 90) day0_start day1_end) →
          80 ≤ v ≤ 90)
  ∧ ∃ a e, Agp.p10 agp_entry_8am = Some a ∧ Agp.p90 agp_entry_8am = Some e
         ∧ 80 ≤ a ∧ e ≤ 90.
Proof.
  assert (Agp.get_glucose_agp (agp_db 80 90) day0_start day1_end
          = Some (agp_profile 80 90)) as H1 by (vm_compute; reflexivity).
  assert (agp_profile 80 90 !! 8%nat = Some agp_entry_8am) as H2
    by (vm_compute; reflexivity).
  assert (Agp.count agp_entry_8am > 0)%nat as H3 by (simpl; lia).
  assert (∀ v, v ∈ Agp.hour_values 8
                 (query_window (agp_db 80 90) day0_start day1_end) →
           80 ≤ v ≤ 90) as H4.
  { intros v Hv. vm_compute in Hv.
    apply elem_of_cons in Hv as [->|Hv]; [lia|].
    apply list_elem_of_singleton in Hv as ->. lia. }
  split; [exact H1|]. split; [exact H2|]. split; [exact H3|].
  split; [exact H4|].
  destruct (agp_percentiles_within_observed_range (agp_db 80 90)
              day0_start day1_end _ _ _ 80 90 H1 H2 H3 H4)
    as (a & b & c & d & e & Ha & _ & _ & _ & He & Hba & _ & _ & _ & Hbe).
  exists a, e. split; [exact Ha|]. split; [exact He|]. lia.
Defined.

Lemma agp_counts_add_up_to_total_witness :
  (None : option Z) = None
  ∧ ∃ resp,
      AgpResponse.get_glucose_agp (agp_db 80 90) None (0, 1)
        (λ s e, (s * 86400, (e + 1) * 86400)) = Some resp
      ∧ AgpResponse.start_date resp = AgpResponse.end_date resp - 14.
Proof.
  split; [reflexivity|].
  destruct (agp_counts_add_up_to_total (agp_db 80 90) None (0, 1)
              (λ s e, (s * 86400, (e + 1) * 86400)))
    as (resp & Hresp & _ & _ & _ & Hstart).
  exists resp. split; [exact Hresp|]. exact (Hstart eq_refl).
Defined.

End AgpMoreRuns.

(** ** The readings of one day *)

Section DayReadings.

#[local] Instance by_timestamp_total : Total Table.by_timestamp.
Proof. intros a b. unfold Table.by_timestamp. lia. Qed.

#[local] Instance by_timestamp_trans : Transitive Table.by_timestamp.
Proof. intros a b c. unfold Table.by_timestamp. lia. Qed.

(** The window from midnight to midnight holds exactly the instants of
    that calendar date. *)
Lemma day_window (d ts : Z) :
  d * 86400 ≤ ts ∧ ts < (d + 1) * 86400 ↔ date_of ts = d.
Proof.
  unfold date_of.
  pose proof (Z.div_mod ts 86400 ltac:(lia)).
  pose proof (Z.mod_pos_bound ts 86400 ltac:(lia)).
  lia.
Qed.

Variable db : list Table.Row.

Lemma day_readings_length (d : Z) :
  length (Table.readings (Table.get_glucose_readings db d))
  = length (filter (λ r, date_of (Table.timestamp r) = d) db).
Proof.
  unfold Table.get_glucose_readings. cbn [Table.readings].
  rewrite merge_sort_Permutation.
  by rewrite (list_filter_iff _ (λ r, date_of (Table.timestamp r) = d))
    by (intros r; apply day_window).
Qed.

(** X11.  The per-day endpoint returns the rows whose calendar date is the
    requested one, all of them and each as often as the table holds it,
    ordered by ascending timestamp. *)
Theorem day_readings_are_that_day_in_time_order (target_date : Z) :
  let out := Table.get_glucose_readings db target_date in
  Table.date out = target_date
  ∧ Table.readings out
    ≡ₚ filter (λ r, date_of (Table.timestamp r) = target_date) db
  ∧ (∀ r, r ∈ Table.readings out
          ↔ r ∈ db ∧ date_of (Table.timestamp r) = target_date)
  ∧ StronglySorted Table.by_timestamp (Table.readings out).
Proof.
  unfold Table.get_glucose_readings. cbn [Table.date Table.readings].
  rewrite (list_filter_iff _ (λ r, date_of (Table.timestamp r) = target_date))
    by (intros r; apply day_window).
  split; [done|]. split; [apply merge_sort_Permutation|].
  split; [|apply StronglySorted_merge_sort; apply _].
  intros r. rewrite merge_sort_Permutation, list_elem_of_filter.
  split; intros []; done.
Qed.

(** X12.  The count that the daily summary reports for a date is the number
    of rows the per-day endpoint returns for that date, whenever the summary
    window covers the whole day. *)
Theorem daily_count_matches_day_readings (start_dt end_dt d : Z) rows row :
  start_dt ≤ d * 86400 → (d + 1) * 86400 ≤ end_dt →
  Daily.get_glucose_daily (to_reading <$> db) start_dt end_dt = Some rows →
  row ∈ rows → Daily.date row = d →
  Daily.count row
  = Z.of_nat (length (Table.readings (Table.get_glucose_readings db d))).
Proof.
  intros Hs He Hrows Hin Hd.
  destruct (get_glucose_daily_total (to_reading <$> db) start_dt end_dt)
    as (rows' & Hrows' & Hall).
  assert (rows' = rows) as -> by congruence.
  apply list_elem_of_lookup in Hin as [i Hi].
  destruct (Forall2_lookup_r _ _ _ _ _ Hall Hi) as (d' & _ & Hrow).
  pose proof (summary_row_date _ _ _ Hrow) as Hd'.
  assert (d' = d) as -> by congruence.
  unfold Daily.summary_row in Hrow.
  destruct (Daily.sql_avg _); simpl in Hrow; [|done].
  injection Hrow as <-. cbn [Daily.count]. f_equal.
  rewrite day_readings_length. unfold Daily.group_values, query_window.
  rewrite length_fmap, list_filter_filter.
  rewrite (list_filter_iff _ (λ r, date_of (timestamp r) = d)).
  - clear. induction db as [|r l IH]; [done|].
    rewrite fmap_cons, !filter_cons. simpl.
    destruct (decide (date_of (Table.timestamp r) = d)); simpl;
      by rewrite IH.
  - intros r. pose proof (day_window d (timestamp r)). lia.
Qed.

End DayReadings.

(** ** Importing readings *)

Section ImportFacts.

Local Abbreviation ts := Table.timestamp.

Variables (autoflush : bool) (db : list Table.Row).

Lemma find_timestamp_None (l : list Table.Row) (r : Table.Row) :
  list_find (λ x, ts x = ts r) l = None ↔ ts r ∉ ts <$> l.
Proof.
  rewrite list_find_None, Forall_forall, list_elem_of_fmap. split.
  - intros Hall (x & Heq & Hx). by apply (Hall x Hx).
  - intros Hnin x Hx Heq. apply Hnin. by exists x.
Qed.

(** The duplicate check, as a test on the timestamps in view. *)
Lemma import_step_eq (pending : list Table.Row) (imported : Z) r :
  Upload.import_step autoflush db (pending, imported) r
  = if decide (ts r ∈ ts <$> (if autoflush then db ++ pending else db))
    then (pending, imported)
    else (pending ++ [r], imported + 1).
Proof.
  unfold Upload.import_step.
  destruct (list_find _ _) as [[i x]|] eqn:Hf.
  - rewrite decide_True; [done|].
    destruct (decide (ts r ∈ ts <$> (if autoflush then db ++ pending else db)))
      as [|Hn]; [done|].
    apply find_timestamp_None in Hn. congruence.
  - apply find_timestamp_None in Hf. by rewrite decide_False.
Qed.

Lemma view_covers_table (pending : list Table.Row) (t : Z) :
  t ∈ ts <$> db → t ∈ ts <$> (if autoflush then db ++ pending else db).
Proof.
  intros Hin. destruct autoflush; [|done].
  rewrite fmap_app. apply elem_of_app. by left.
Qed.

Lemma view_within_session (pending : list Table.Row) (t : Z) :
  t ∈ ts <$> (if autoflush then db ++ pending else db) →
  t ∈ ts <$> (db ++ pending).
Proof.
  destruct autoflush; [done|]. intros Hin.
  rewrite fmap_app. apply elem_of_app. by left.
Qed.

(** What the loop leaves behind: the rows it added, in file order. *)
Lemma import_fold_spec (readings pending : list Table.Row) (imported : Z) :
  ∃ added,
    foldl (Upload.import_step autoflush db) (pending, imported) readings
    = (pending ++ added, imported + Z.of_nat (length added))
    ∧ added `sublist_of` readings
    ∧ (∀ a, a ∈ added → ts a ∉ ts <$> db)
    ∧ (∀ r, r ∈ readings → ts r ∈ ts <$> (db ++ pending ++ added)).
Proof.
  revert pending imported.
  induction readings as [|r rs IH]; intros pending imported.
  - exists []. rewrite app_nil_r. simpl. split; [f_equal; lia|].
    split; [done|]. split; intros ? Hin; by apply not_elem_of_nil in Hin.
  - cbn [foldl]. rewrite import_step_eq.
    destruct (decide _) as [Hseen|Hnew'].
    + destruct (IH pending imported) as (added & -> & Hsub & Hnew & Hcov).
      exists added. split; [done|]. split; [by apply sublist_cons|].
      split; [done|]. intros r' [->|Hr']%elem_of_cons; [|by apply Hcov].
      apply view_within_session in Hseen.
      rewrite app_assoc, fmap_app. apply elem_of_app. by left.
    + destruct (IH (pending ++ [r]) (imported + 1))
        as (added & -> & Hsub & Hnew & Hcov).
      exists (r :: added). rewrite <- app_assoc. simpl.
      split; [f_equal; lia|]. split; [by apply sublist_skip|]. split.
      * intros a [->|Ha]%elem_of_cons; [|by apply Hnew].
        intros Hin. apply Hnew'. by apply view_covers_table.
      * intros r' [->|Hr']%elem_of_cons.
        -- apply list_elem_of_fmap_2. rewrite !elem_of_app. right. right. left.
        -- specialize (Hcov r' Hr'). by rewrite <- app_assoc in Hcov.
Qed.

Lemma import_fold_seen (readings : list Table.Row) (st : list Table.Row * Z) :
  (∀ r, r ∈ readings → ts r ∈ ts <$> db) →
  foldl (Upload.import_step autoflush db) st readings = st.
Proof.
  revert st. induction readings as [|r rs IH]; intros [pending imported] Hall;
    [done|].
  cbn [foldl]. rewrite import_step_eq.
  rewrite decide_True by (apply view_covers_table, Hall; left).
  apply IH. intros r' Hr'. apply Hall. by right.
Qed.

(** One row per timestamp is kept, if the session autoflushes or the file
    itself repeats no timestamp. *)
Lemma import_fold_NoDup (readings pending : list Table.Row) (imported : Z) :
  NoDup (ts <$> (db ++ pending)) →
  (autoflush = true
   ∨ (NoDup (ts <$> readings)
      ∧ ∀ p r, p ∈ pending → r ∈ readings → ts p ≠ ts r)) →
  NoDup (ts <$> (db ++ (foldl (Upload.import_step autoflush db)
                          (pending, imported) readings).1)).
Proof.
  revert pending imported.
  induction readings as [|r rs IH]; intros pending imported Hnd Hmode; [done|].
  cbn [foldl]. rewrite import_step_eq.
  destruct (decide _) as [Hseen|Hnew].
  - apply IH; [done|]. destruct Hmode as [?|[Hfile Hfresh]]; [by left|right].
    rewrite fmap_cons in Hfile. apply NoDup_cons in Hfile as [_ Hfile].
    split; [done|]. intros p r' Hp Hr'. apply Hfresh; [done|by right].
  - apply IH.
    + rewrite app_assoc, fmap_app. simpl. apply NoDup_app.
      split; [done|]. split; [|apply NoDup_singleton].
      intros t Ht Ht'. apply list_elem_of_singleton in Ht' as ->.
      destruct Hmode as [Haf|[Hfile Hfresh]].
      * rewrite Haf in Hnew. done.
      * rewrite fmap_app in Ht. apply elem_of_app in Ht as [Ht|Ht].
        -- apply Hnew. by apply view_covers_table.
        -- apply list_elem_of_fmap in Ht as (p & Heq & Hp).
           apply (Hfresh p r Hp); [left|done].
    + destruct Hmode as [?|[Hfile Hfresh]]; [by left|right].
      rewrite fmap_cons in Hfile. apply NoDup_cons in Hfile as [Hr Hfile].
      split; [done|]. intros p r' [Hp|Hp]%elem_of_app Hr'.
      * apply Hfresh; [done|by right].
      * apply list_elem_of_singleton in Hp as ->. intros Heq. apply Hr.
        rewrite Heq. by apply list_elem_of_fmap_2.
Qed.

End ImportFacts.

Section UploadClaims.

Local Abbreviation ts := Table.timestamp.

Variables (autoflush : bool) (filename : string).
Variables (readings db : list Table.Row).

Lemma import_readings_spec :
  ∃ added,
    Upload.import_readings autoflush db readings
    = (db ++ added, Z.of_nat (length added))
    ∧ added `sublist_of` readings
    ∧ (∀ a, a ∈ added → ts a ∉ ts <$> db)
    ∧ (∀ r, r ∈ readings → ts r ∈ ts <$> (db ++ added)).
Proof.
  unfold Upload.import_readings.
  destruct (import_fold_spec autoflush db readings [] 0)
    as (added & -> & Hsub & Hnew & Hcov).
  exists added. simpl. done.
Qed.


(** X14.  Uploading the same file again imports nothing and leaves the
    table as the first upload left it. *)
Theorem upload_cgm_again_imports_nothing db' resp :
  Upload.upload_cgm autoflush filename readings db = inr (db', resp) →
  Upload.upload_cgm autoflush filename readings db'
  = inr (db', {| Upload.readings_imported := 0;
                 Upload.total_in_file := Upload.total_in_file resp;
                 Upload.source := "csv_import" |}).
Proof.
  unfold Upload.upload_cgm.
  destruct (Upload.endswith filename ".csv"); simpl; [|done].
  destruct readings as [|r rs] eqn:Hr; [done|]. rewrite <- Hr.
  destruct import_readings_spec as (added & -> & Hsub & Hnew & Hcov).
  intros [= <- <-].
  unfold Upload.import_readings.
  rewrite import_fold_seen by done. by rewrite app_nil_r.
Qed.

(** X15.  If the table holds one row per timestamp, it still does after an
    upload, provided the session autoflushes or the file repeats no
    timestamp. *)
Theorem upload_cgm_keeps_timestamps_unique db' resp :
  NoDup (ts <$> db) →
  autoflush = true ∨ NoDup (ts <$> readings) →
  Upload.upload_cgm autoflush filename readings db = inr (db', resp) →
  NoDup (ts <$> db').
Proof.
  intros Hnd Hmode. unfold Upload.upload_cgm.
  destruct (Upload.endswith filename ".csv"); simpl; [|done].
  destruct readings as [|r rs] eqn:Hr; [done|]. rewrite <- Hr.
  unfold Upload.import_readings.
  pose proof (import_fold_NoDup autoflush db readings [] 0) as Hfold.
  destruct (foldl _ _ _) as [pending imported]. intros [= <- _].
  apply Hfold.
  - by rewrite app_nil_r.
  - destruct Hmode as [?|Hfile]; [by left|right]. rewrite <- Hr in Hfile.
    split; [done|]. intros p r' Hp. by apply not_elem_of_nil in Hp.
Qed.

End UploadClaims.

Section UploadRuns.

Lemma daily_count_matches_day_readings_witness :
  day0_start ≤ 0 * 86400 ∧ (0 + 1) * 86400 ≤ day0_end
  ∧ ∃ rows row,
      Daily.get_glucose_daily (to_reading <$> cgm_file) day0_start day0_end
      = Some rows
      ∧ row ∈ rows ∧ Daily.date row = 0
      ∧ Daily.count row
        = Z.of_nat (length (Table.readings
                              (Table.get_glucose_readings cgm_file 0))).
Proof.
  assert (day0_start ≤ 0 * 86400) as H1 by (vm_compute; discriminate).
  assert ((0 + 1) * 86400 ≤ day0_end) as H2 by (vm_compute; discriminate).
  split; [exact H1|]. split; [exact H2|].
  destruct (get_glucose_daily_total (to_reading <$> cgm_file)
              day0_start day0_end) as (rows & Hrows & _).
  assert (rows = [ {| Daily.date := 0; Daily.avg := 86; Daily.min := Some 79;
                      Daily.max := Some 94; Daily.count := 2 |} ]) as Hval
    by (vm_compute in Hrows; congruence).
  exists rows, {| Daily.date := 0; Daily.avg := 86; Daily.min := Some 79;
                  Daily.max := Some 94; Daily.count := 2 |}.
  assert ({| Daily.date := 0; Daily.avg := 86; Daily.min := Some 79;
             Daily.max := Some 94; Daily.count := 2 |} ∈ rows) as Hin
    by (rewrite Hval; left).
  split; [exact Hrows|]. split; [exact Hin|]. split; [reflexivity|].
  exact (daily_count_matches_day_readings cgm_file day0_start day0_end 0
           rows _ H1 H2 Hrows Hin eq_refl).
Defined.


Lemma upload_cgm_again_imports_nothing_witness :
  Upload.upload_cgm false "cgm_data.csv" cgm_file []
  = inr (cgm_file, {| Upload.readings_imported := 2;
                      Upload.total_in_file := 2;
                      Upload.source := "csv_import" |})
  ∧ Upload.upload_cgm false "cgm_data.csv" cgm_file cgm_file
    = inr (cgm_file, {| Upload.readings_imported := 0;
                        Upload.total_in_file := 2;
                        Upload.source := "csv_import" |}).
Proof.
  assert (Upload.upload_cgm false "cgm_data.csv" cgm_file []
          = inr (cgm_file, {| Upload.readings_imported := 2;
                              Upload.total_in_file := 2;
                              Upload.source := "csv_import" |})) as H
    by (vm_compute; reflexivity).
  split; [exact H|].
  exact (upload_cgm_again_imports_nothing false "cgm_data.csv" cgm_file []
           _ _ H).
Defined.

Lemma upload_cgm_keeps_timestamps_unique_witness :
  NoDup (Table.timestamp <$> ([] : list Table.Row))
  ∧ (false = true ∨ NoDup (Table.timestamp <$> cgm_file))
  ∧ NoDup (Table.timestamp <$> cgm_file).
Proof.
  assert (NoDup (Table.timestamp <$> ([] : list Table.Row))) as H1
    by constructor.
  assert (false = true ∨ NoDup (Table.timestamp <$> cgm_file)) as H2.
  { right. apply NoDup_cons. split; [|apply NoDup_singleton].
    intros Hin. apply list_elem_of_singleton in Hin. vm_compute in Hin.
    discriminate Hin. }
  split; [exact H1|]. split; [exact H2|].
  apply (upload_cgm_keeps_timestamps_unique false "cgm_data.csv" cgm_file []
           cgm_file {| Upload.readings_imported := 2;
                       Upload.total_in_file := 2;
                       Upload.source := "csv_import" |} H1 H2).
  vm_compute. reflexivity.
Defined.

End UploadRuns.

(** ** The correlation page *)

Section CorrelationsPageFacts.

Local Open Scope Q_scope.

Local Abbreviation X := Correlations.x.
Local Abbreviation Y := Correlations.y.

Implicit Types (points : list Correlations.CorrelationPoint).

Lemma gt_spec (a b : Q) : CorrelationsPage.gt a b = true ↔ b < a.
Proof.
  unfold CorrelationsPage.gt. rewrite negb_true_iff.
  destruct (Qle_bool a b) eqn:E.
  - apply Qle_bool_iff in E. split; [done|]. intros. lra.
  - split; [|done]. intros _. apply Qnot_le_lt. intros Hle.
    apply Qle_bool_iff in Hle. congruence.
Qed.

Lemma gt_proper (a a' b : Q) :
  a == a' → CorrelationsPage.gt a b = CorrelationsPage.gt a' b.
Proof.
  intros E.
  destruct (CorrelationsPage.gt a b) eqn:H1,
           (CorrelationsPage.gt a' b) eqn:H2; try done.
  - apply gt_spec in H1. rewrite E in H1. apply gt_spec in H1. congruence.
  - apply gt_spec in H2. rewrite <- E in H2. apply gt_spec in H2. congruence.
Qed.

Lemma gt_cases (a b : Q) :
  (CorrelationsPage.gt a b = true ∧ b < a)
  ∨ (CorrelationsPage.gt a b = false ∧ a <= b).
Proof.
  destruct (CorrelationsPage.gt a b) eqn:E; [left|right]; split; try done.
  - by apply gt_spec.
  - apply Qnot_lt_le. intros Hlt. apply gt_spec in Hlt. congruence.
Qed.

Lemma Qle_bool_cases (r : Q) :
  (Qle_bool 0 r = true ∧ 0 <= r) ∨ (Qle_bool 0 r = false ∧ r < 0).
Proof.
  destruct (Qle_bool 0 r) eqn:E; [left|right]; split; try done.
  - by apply Qle_bool_iff.
  - apply Qnot_le_lt. intros Hle. apply Qle_bool_iff in Hle. congruence.
Qed.

(** X16.  The strength label and the badge colour depend on the magnitude
    of the coefficient only, they always name the same one of the four
    bands, the band is "strong" exactly above 0.7 and "no significant"
    exactly up to 0.2, and the direction is "positive" exactly for a
    non-negative coefficient. *)
Theorem correlation_badge_is_consistent (r : Q) :
  let i := CorrelationsPage.interpretCorrelation r in
  let c := CorrelationsPage.correlationColor r in
  CorrelationsPage.strength (CorrelationsPage.interpretCorrelation (- r))
  = CorrelationsPage.strength i
  ∧ CorrelationsPage.correlationColor (- r) = c
  ∧ (CorrelationsPage.strength i = "Strong correlation"%string
     ↔ c = "var(--success)"%string)
  ∧ (CorrelationsPage.strength i = "Moderate correlation"%string
     ↔ c = "var(--warning)"%string)
  ∧ (CorrelationsPage.strength i = "Weak correlation"%string
     ↔ c = "var(--text-secondary)"%string)
  ∧ (CorrelationsPage.strength i = "No significant correlation"%string
     ↔ c = "var(--text-muted)"%string)
  ∧ (CorrelationsPage.strength i = "Strong correlation"%string
     ↔ 7 # 10 < Qabs r)
  ∧ (CorrelationsPage.strength i = "No significant correlation"%string
     ↔ Qabs r <= 2 # 10)
  ∧ (CorrelationsPage.direction i = "positive"%string ↔ 0 <= r).
Proof.
  unfold CorrelationsPage.interpretCorrelation,
    CorrelationsPage.correlationColor.
  cbn [CorrelationsPage.strength CorrelationsPage.direction].
  rewrite !(gt_proper (Qabs (- r)) (Qabs r)) by apply Qabs_opp.
  split; [done|]. split; [done|].
  destruct (gt_cases (Qabs r) (7 # 10)) as [[E7 H7]|[E7 H7]];
    destruct (gt_cases (Qabs r) (4 # 10)) as [[E4 H4]|[E4 H4]];
    destruct (gt_cases (Qabs r) (2 # 10)) as [[E2 H2]|[E2 H2]];
    destruct (Qle_bool_cases r) as [[E0 H0]|[E0 H0]];
    rewrite E7, ?E4, ?E2, E0;
    split_and!; split; intros Hb; try done; try lra.
Qed.

End CorrelationsPageFacts.

Section TrendLineFacts.

Local Open Scope Q_scope.

Local Abbreviation X := Correlations.x.
Local Abbreviation Y := Correlations.y.
Local Abbreviation count_of points := (inject_Z (Z.of_nat (length points))).

Implicit Types (points : list Correlations.CorrelationPoint).

Lemma fold_Qmin_spec (rest : list Q) (x0 : Q) :
  foldl Qmin x0 rest ∈ x0 :: rest
  ∧ ∀ v, v ∈ x0 :: rest → foldl Qmin x0 rest <= v.
Proof.
  revert x0. induction rest as [|w rest IH]; intros x0; simpl.
  - split; [left|]. intros v Hv. apply list_elem_of_singleton in Hv as ->. lra.
  - destruct (IH (Qmin x0 w)) as [Hin Hle].
    pose proof (Q.le_min_l x0 w). pose proof (Q.le_min_r x0 w).
    pose proof (Hle _ ltac:(left)).
    split.
    + apply elem_of_cons in Hin as [Heq|Hin]; [|right; by right].
      rewrite Heq. unfold Qmin, GenericMinMax.gmin.
      destruct (x0 ?= w); [left|left|right; left].
    + intros v [->|[->|Hv]%elem_of_cons]%elem_of_cons; [lra|lra|].
      apply Hle. by right.
Qed.

Lemma fold_Qmax_spec (rest : list Q) (x0 : Q) :
  foldl Qmax x0 rest ∈ x0 :: rest
  ∧ ∀ v, v ∈ x0 :: rest → v <= foldl Qmax x0 rest.
Proof.
  revert x0. induction rest as [|w rest IH]; intros x0; simpl.
  - split; [left|]. intros v Hv. apply list_elem_of_singleton in Hv as ->. lra.
  - destruct (IH (Qmax x0 w)) as [Hin Hle].
    pose proof (Q.le_max_l x0 w). pose proof (Q.le_max_r x0 w).
    pose proof (Hle _ ltac:(left)).
    split.
    + apply elem_of_cons in Hin as [Heq|Hin]; [|right; by right].
      rewrite Heq. unfold Qmax, GenericMinMax.gmax.
      destruct (x0 ?= w); [left|right; left|left].
    + intros v [->|[->|Hv]%elem_of_cons]%elem_of_cons; [lra|lra|].
      apply Hle. by right.
Qed.

(** A returned line comes from at least two points with a non-zero
    denominator and solves the normal equations. *)
Lemma linearRegression_Some_inv points reg :
  Correlations.linearRegression points = Some reg →
  (2 ≤ length points)%nat
  ∧ ¬ denominator_of points == 0
  ∧ normal_equations points
      (Correlations.slope reg) (Correlations.intercept reg).
Proof.
  destruct (sums_spec points) as (Ex & Ey & Exy & Ex2).
  assert (count_of points * Correlations.sumX2 (Correlations.sums points)
          - Correlations.sumX (Correlations.sums points)
            * Correlations.sumX (Correlations.sums points)
          == denominator_of points) as Hden.
  { unfold denominator_of. rewrite Ex, Ex2. reflexivity. }
  unfold Correlations.linearRegression.
  destruct (Nat.ltb_spec (length points) 2) as [|Hlen]; [done|].
  destruct (Qeq_bool _ 0) eqn:Hb; [done|].
  apply Qeq_bool_neq in Hb. intros [= <-].
  cbn [Correlations.slope Correlations.intercept].
  split; [done|]. split; [by rewrite <- Hden|].
  assert (¬ count_of points == 0) as Hnz.
  { change 0 with (inject_Z 0). rewrite inject_Z_injective. lia. }
  unfold normal_equations. rewrite <- Ex, <- Ey, <- Exy, <- Ex2.
  exact (ols_solves_normal_equations _ _
           (Correlations.sumY (Correlations.sums points))
           (Correlations.sumXY (Correlations.sums points)) _ Hnz Hb).
Qed.

Lemma linearRegression_Some_intro points :
  (2 ≤ length points)%nat → ¬ all_x_equal points →
  is_Some (Correlations.linearRegression points).
Proof.
  intros Hlen Hvar.
  destruct (sums_spec points) as (Ex & Ey & Exy & Ex2).
  unfold Correlations.linearRegression.
  destruct (Nat.ltb_spec (length points) 2) as [|_]; [lia|].
  destruct (Qeq_bool _ 0) eqn:Hb; [exfalso|by eexists].
  apply Qeq_bool_iff in Hb. apply Hvar, denominator_of_zero.
  unfold denominator_of. by rewrite <- Ex, <- Ex2.
Qed.

Lemma normal_equations_unique points (a b a' b' : Q) :
  (1 ≤ length points)%nat → ¬ denominator_of points == 0 →
  normal_equations points a b → normal_equations points a' b' →
  a == a' ∧ b == b'.
Proof.
  intros Hlen Hden [H1 H2] [H1' H2']. unfold denominator_of in Hden.
  set (n := count_of points) in *.
  set (S1 := total_of X points) in *.
  set (S2 := total_of (λ p, X p * X p) points) in *.
  assert (0 < n) as Hn
    by (subst n; change 0 with (inject_Z 0); rewrite <- Zlt_Qlt; lia).
  assert ((a - a') * (n * S2 - S1 * S1) == 0) as Ha.
  { transitivity (n * ((a * S2 + b * S1) - (a' * S2 + b' * S1))
                  - S1 * ((a * S1 + b * n) - (a' * S1 + b' * n))); [ring|].
    rewrite H1, H1', H2, H2'. ring. }
  apply Qmult_integral in Ha as [Ha|Ha]; [|done].
  assert (a == a') as Eaa by lra.
  split; [done|].
  assert ((b - b') * n == 0) as Hb.
  { transitivity ((a * S1 + b * n) - (a' * S1 + b' * n) - (a - a') * S1);
      [ring|]. rewrite H2, H2', Ha. ring. }
  apply Qmult_integral in Hb as [Hb|Hb]; lra.
Qed.

Lemma exact_fit_normal_equations points (a b : Q) :
  (∀ p, p ∈ points → Y p == a * X p + b) → normal_equations points a b.
Proof.
  unfold normal_equations. induction points as [|p points IH]; intros Hfit.
  - simpl. split; ring.
  - destruct IH as [IH1 IH2]; [intros q Hq; apply Hfit; by right|].
    pose proof (Hfit p ltac:(left)) as Hp.
    rewrite length_cons, Nat2Z.inj_succ, <- Z.add_1_r, inject_Z_plus.
    change (inject_Z 1) with 1. simpl.
    rewrite <- IH1, <- IH2, Hp. split; ring.
Qed.

(** X17.  The regression line passes through the centroid of the points:
    at the mean of the x-values it takes the mean of the y-values. *)
Theorem regression_line_passes_through_centroid points reg :
  Correlations.linearRegression points = Some reg →
  Correlations.slope reg * (total_of X points / count_of points)
  + Correlations.intercept reg
  == total_of Y points / count_of points.
Proof.
  intros Hreg.
  destruct (linearRegression_Some_inv _ _ Hreg) as (Hlen & _ & _ & H2).
  assert (¬ count_of points == 0) as Hnz.
  { change 0 with (inject_Z 0). rewrite inject_Z_injective. lia. }
  rewrite <- H2. field. done.
Qed.

(** X18.  When the points lie exactly on a line [y = a x + b] and their
    x-values are not all equal, [linearRegression] returns that line. *)
Theorem regression_recovers_an_exact_line points (a b : Q) :
  (2 ≤ length points)%nat → ¬ all_x_equal points →
  (∀ p, p ∈ points → Y p == a * X p + b) →
  ∃ reg, Correlations.linearRegression points = Some reg
       ∧ Correlations.slope reg == a
       ∧ Correlations.intercept reg == b.
Proof.
  intros Hlen Hvar Hfit.
  destruct (linearRegression_Some_intro points Hlen Hvar) as [reg Hreg].
  destruct (linearRegression_Some_inv _ _ Hreg) as (_ & Hden & Hne).
  exists reg. split; [done|].
  apply (normal_equations_unique points); [lia|done..|].
  by apply exact_fit_normal_equations.
Qed.

(** X19.  The trend line is drawn exactly when [linearRegression] returns a
    line.  It then consists of two points of that line, placed at the
    smallest and the largest x-value of the data, so that every data point
    lies between them horizontally. *)
Theorem trend_line_spans_the_points (data : CorrelationsPage.CorrelationResponse) :
  let points := CorrelationsPage.points data in
  let line := CorrelationsPage.trendLineData (Some data) in
  (line = [] ↔ Correlations.linearRegression points = None)
  ∧ ∀ reg, Correlations.linearRegression points = Some reg →
      ∃ lo hi,
        line = [lo; hi]
        ∧ CorrelationsPage.x lo ∈ X <$> points
        ∧ CorrelationsPage.x hi ∈ X <$> points
        ∧ (∀ p, p ∈ points →
             CorrelationsPage.x lo <= X p ∧ X p <= CorrelationsPage.x hi)
        ∧ CorrelationsPage.y lo
          = Correlations.slope reg * CorrelationsPage.x lo
            + Correlations.intercept reg
        ∧ CorrelationsPage.y hi
          = Correlations.slope reg * CorrelationsPage.x hi
            + Correlations.intercept reg.
Proof.
  intros points line. subst line. unfold CorrelationsPage.trendLineData.
  fold points.
  destruct (Correlations.linearRegression points) as [reg|] eqn:Hreg.
  - destruct (linearRegression_Some_inv _ _ Hreg) as (Hlen & _ & _).
    destruct (Nat.ltb_spec (length points) 2) as [|_]; [lia|].
    destruct points as [|p0 rest] eqn:Hp; [simpl in Hlen; lia|].
    rewrite fmap_cons. cbn [CorrelationsPage.math_min CorrelationsPage.math_max].
    split; [split; intros; done|].
    intros reg' [= <-].
    destruct (fold_Qmin_spec (X <$> rest) (X p0)) as [Hmin Hminle].
    destruct (fold_Qmax_spec (X <$> rest) (X p0)) as [Hmax Hmaxle].
    do 2 eexists. split; [reflexivity|].
    cbn [CorrelationsPage.x CorrelationsPage.y].
    split; [done|]. split; [done|]. split; [|done].
    intros p Hin.
    assert (X p ∈ X p0 :: (X <$> rest)) as Hx
      by (rewrite <- fmap_cons; by apply list_elem_of_fmap_2).
    split; [by apply Hminle|by apply Hmaxle].
  - split; [|done].
    split; [done|]. intros _. by destruct (length points <? 2)%nat.
Qed.

End TrendLineFacts.

Section CorrelationsPageRuns.

Local Open Scope Q_scope.

Lemma regression_line_passes_through_centroid_witness :
  ∃ reg, Correlations.linearRegression line_points = Some reg
       ∧ Correlations.slope reg * (7 / 3) + Correlations.intercept reg
         == 17 / 3.
Proof.
  destruct (linearRegression_Some_intro line_points) as [reg Hreg];
    [simpl; lia|exact line_points_vary|].
  exists reg. split; [exact Hreg|].
  exact (regression_line_passes_through_centroid line_points reg Hreg).
Defined.

Lemma regression_recovers_an_exact_line_witness :
  (2 ≤ length line_points)%nat
  ∧ ¬ all_x_equal line_points
  ∧ (∀ p, p ∈ line_points → Correlations.y p == 2 * Correlations.x p + 1)
  ∧ ∃ reg, Correlations.linearRegression line_points = Some reg
         ∧ Correlations.slope reg == 2
         ∧ Correlations.intercept reg == 1.
Proof.
  assert (2 ≤ length line_points)%nat as H1 by (simpl; lia).
  assert (∀ p, p ∈ line_points →
            Correlations.y p == 2 * Correlations.x p + 1) as H3.
  { intros p Hp. unfold line_points in Hp.
    repeat (apply elem_of_cons in Hp as [->|Hp]); [reflexivity..|].
    by apply not_elem_of_nil in Hp. }
  split; [exact H1|]. split; [exact line_points_vary|]. split; [exact H3|].
  exact (regression_recovers_an_exact_line line_points 2 1 H1
           line_points_vary H3).
Defined.

Lemma trend_line_spans_the_points_witness :
  ∃ reg lo hi,
    Correlations.linearRegression line_points = Some reg
    ∧ CorrelationsPage.trendLineData (Some line_response) = [lo; hi]
    ∧ ∀ p, p ∈ line_points →
        CorrelationsPage.x lo <= Correlations.x p
        ∧ Correlations.x p <= CorrelationsPage.x hi.
Proof.
  destruct (linearRegression_Some_intro line_points) as [reg Hreg];
    [simpl; lia|exact line_points_vary|].
  destruct (proj2 (trend_line_spans_the_points line_response) reg Hreg)
    as (lo & hi & Hline & _ & _ & Hspan & _).
  exists reg, lo, hi. split; [exact Hreg|]. split; [exact Hline|exact Hspan].
Defined.

End CorrelationsPageRuns.

(** ** The heart-rate page *)

Section HeartRateFacts.

Local Open Scope Q_scope.

Local Abbreviation count_of points := (inject_Z (Z.of_nat (length points))).

Implicit Types (points : list Correlations.CorrelationPoint).

(** The four [reduce] calls compute the accumulators of the other loop. *)
Lemma reduce_sums (s0 : Correlations.Sums) points :
  foldl (λ s d, s + HeartRatePage.x d) (Correlations.sumX s0)
    (as_point <$> points)
  = Correlations.sumX (foldl Correlations.accumulate s0 points)
  ∧ foldl (λ s d, s + HeartRatePage.y d) (Correlations.sumY s0)
      (as_point <$> points)
    = Correlations.sumY (foldl Correlations.accumulate s0 points)
  ∧ foldl (λ s d, s + HeartRatePage.x d * HeartRatePage.y d)
      (Correlations.sumXY s0) (as_point <$> points)
    = Correlations.sumXY (foldl Correlations.accumulate s0 points)
  ∧ foldl (λ s d, s + HeartRatePage.x d * HeartRatePage.x d)
      (Correlations.sumX2 s0) (as_point <$> points)
    = Correlations.sumX2 (foldl Correlations.accumulate s0 points).
Proof.
  revert s0. induction points as [|p points IH]; intros s0; [done|].
  rewrite fmap_cons. cbn [foldl].
  destruct (IH (Correlations.accumulate s0 p)) as (<- & <- & <- & <-).
  done.
Qed.

(** Where the correlation page draws a line, the heart-rate page computes
    the same one. *)
Lemma heart_rate_regression_Some points reg :
  Correlations.linearRegression points = Some reg →
  HeartRatePage.linearRegression (as_point <$> points)
  = {| HeartRatePage.slope := Correlations.slope reg;
       HeartRatePage.intercept := Correlations.intercept reg |}.
Proof.
  unfold Correlations.linearRegression, HeartRatePage.linearRegression.
  rewrite length_fmap.
  destruct (length points <? 2)%nat; [done|].
  destruct (reduce_sums
              {| Correlations.sumX := 0; Correlations.sumY := 0;
                 Correlations.sumXY := 0; Correlations.sumX2 := 0 |} points)
    as (Hx & Hy & Hxy & Hx2).
  cbn [Correlations.sumX Correlations.sumY Correlations.sumXY
       Correlations.sumX2] in Hx, Hy, Hxy, Hx2.
  rewrite Hx, Hy, Hxy, Hx2. fold (Correlations.sums points).
  destruct (Qeq_bool _ 0); [done|]. by intros [= <-].
Qed.



End HeartRateFacts.

Section DownsampleFacts.

Context {T : Type}.

Implicit Types (data : list T) (keep : nat → bool).

Lemma filter_from_length keep (i : nat) data :
  length (HeartRatePage.filter_from keep i data)
  = length (filter (λ j, keep j = true) (seq i (length data))).
Proof.
  revert i. induction data as [|d rest IH]; intros i; [done|].
  cbn [HeartRatePage.filter_from length seq].
  rewrite filter_cons, length_app, IH.
  destruct (keep i).
  - by rewrite decide_True.
  - by rewrite decide_False.
Qed.

Lemma filter_from_sublist keep (i : nat) data :
  HeartRatePage.filter_from keep i data `sublist_of` data.
Proof.
  revert i. induction data as [|d rest IH]; intros i; [done|].
  simpl. destruct (keep i); simpl.
  - by apply sublist_skip.
  - by apply sublist_cons.
Qed.

(** Below [n] there are [ceil(n / f)] multiples of [f]. *)
Lemma multiples_below (f n : nat) :
  (1 ≤ f)%nat →
  let c := length (filter (λ j, (j mod f =? 0)%nat = true) (seq 0 n)) in
  (c * f < n + f)%nat ∧ (n ≤ c * f)%nat.
Proof.
  intros Hf. induction n as [|n IH]; [simpl; lia|].
  rewrite seq_S, filter_app, length_app. simpl in *.
  destruct IH as [IH1 IH2].
  pose proof (Nat.div_mod_eq n f) as Hdm.
  pose proof (Nat.mod_upper_bound n f ltac:(lia)) as Hr.
  rewrite filter_cons, filter_nil.
  destruct (decide ((n mod f =? 0)%nat = true)) as [Hz|Hnz]; simpl.
  - apply Nat.eqb_eq in Hz.
    generalize dependent (length (filter (λ j, (j mod f =? 0)%nat = true)
                                    (seq 0 n))).
    generalize dependent (n mod f)%nat. generalize dependent (n / f)%nat.
    intros k r Hk Hr -> c Hc1 Hc2.
    assert (c = k) as -> by nia. nia.
  - apply not_true_iff_false, Nat.eqb_neq in Hnz.
    generalize dependent (length (filter (λ j, (j mod f =? 0)%nat = true)
                                    (seq 0 n))).
    generalize dependent (n mod f)%nat. generalize dependent (n / f)%nat.
    intros k r Hk Hr Hnz c Hc1 Hc2.
    assert (c = S k) as -> by nia. nia.
Qed.

(** X21.  With a budget of at least one point [downsample] returns at most
    that many points, all of them points of the input in their order, the
    first point among them, and the input itself when it already fits. *)
Theorem downsample_respects_the_budget data (maxPoints : nat) :
  (1 ≤ maxPoints)%nat →
  (length (HeartRatePage.downsample data maxPoints) ≤ maxPoints)%nat
  ∧ HeartRatePage.downsample data maxPoints `sublist_of` data
  ∧ head (HeartRatePage.downsample data maxPoints) = head data
  ∧ ((length data ≤ maxPoints)%nat →
     HeartRatePage.downsample data maxPoints = data).
Proof.
  intros Hm. unfold HeartRatePage.downsample.
  destruct (Nat.leb_spec (length data) maxPoints) as [Hle|Hgt].
  { split; [done|]. split; [done|]. done. }
  destruct maxPoints as [|m]; [lia|].
  set (factor := ((length data + S m - 1) / S m)%nat).
  assert (length data ≤ factor * S m)%nat as Hcover.
  { subst factor.
    pose proof (Nat.div_mod_eq (length data + S m - 1) (S m)).
    pose proof (Nat.mod_upper_bound (length data + S m - 1) (S m)).
    nia. }
  assert (1 ≤ factor)%nat as Hf by nia.
  split; [|split; [apply filter_from_sublist|split; [|lia]]].
  - rewrite filter_from_length.
    destruct (multiples_below factor (length data) Hf) as [Hc _]. nia.
  - destruct data as [|d rest]; [done|]. simpl.
    by rewrite Nat.Div0.mod_0_l.
Qed.

End DownsampleFacts.

Section RestingTrendFacts.

Local Open Scope Q_scope.

Lemma math_round_nearest (v : Q) :
  inject_Z (HeartRatePage.math_round v) - (1 # 2) <= v
  ∧ v < inject_Z (HeartRatePage.math_round v) + (1 # 2).
Proof.
  unfold HeartRatePage.math_round.
  pose proof (Qfloor_le (v + (1 # 2))) as Hlo.
  pose proof (Qlt_floor (v + (1 # 2))) as Hhi.
  rewrite inject_Z_plus in Hhi. change (inject_Z 1) with 1 in Hhi.
  split; lra.
Qed.

Lemma valid_day_Some (d d' : HeartRatePage.HeartRateDaily) (v : Q) :
  HeartRatePage.valid_day d = Some (d', v) →
  d' = d ∧ HeartRatePage.restingHeartRate d = Some v ∧ 0 < v.
Proof.
  unfold HeartRatePage.valid_day.
  destruct (HeartRatePage.restingHeartRate d) as [w|]; [|done].
  destruct (Qle_bool w 0) eqn:E; [done|]. intros [= <- <-].
  split; [done|]. split; [done|].
  apply Qnot_le_lt. intros Hle. apply Qle_bool_iff in Hle. congruence.
Qed.

Lemma index_points_as_points
    (values : list (HeartRatePage.HeartRateDaily * Q)) :
  as_point <$> index_points values
  = imap (λ i dv, {| HeartRatePage.x := inject_Z (Z.of_nat i);
                     HeartRatePage.y := dv.2 |}) values.
Proof. unfold index_points. rewrite fmap_imap. by apply imap_ext. Qed.

Lemma index_points_vary (values : list (HeartRatePage.HeartRateDaily * Q)) :
  (2 ≤ length values)%nat → ¬ all_x_equal (index_points values).
Proof.
  intros Hlen Hall.
  destruct values as [|dv0 [|dv1 rest]]; simpl in Hlen; [lia|lia|].
  assert (inject_Z 0 == inject_Z 1) as Habs; [|discriminate Habs].
  apply (Hall {| Correlations.date := HeartRatePage.date dv0.1;
                 Correlations.x := inject_Z 0; Correlations.y := dv0.2 |}
              {| Correlations.date := HeartRatePage.date dv1.1;
                 Correlations.x := inject_Z 1; Correlations.y := dv1.2 |}).
  - left.
  - right. left.
Qed.

Variables (formatDateLabel : string → bool → string) (needsYear : bool).
Variable dailyHR : list HeartRatePage.HeartRateDaily.

Local Abbreviation valid := (omap HeartRatePage.valid_day dailyHR).
Local Abbreviation rows :=
  (HeartRatePage.restingHRTrendData formatDateLabel needsYear dailyHR).

Lemma trend_rows_lookup (i : nat) row :
  rows !! i = Some row →
  ∃ d v,
    valid !! i = Some (d, v)
    ∧ HeartRatePage.row_date row = HeartRatePage.date d
    ∧ HeartRatePage.dateLabel row
      = formatDateLabel (HeartRatePage.date d) needsYear
    ∧ HeartRatePage.restingHR row = v
    ∧ HeartRatePage.trend row
      = inject_Z (HeartRatePage.math_round
          ((HeartRatePage.slope
              (HeartRatePage.linearRegression (as_point <$> index_points valid))
            * inject_Z (Z.of_nat i)
            + HeartRatePage.intercept
                (HeartRatePage.linearRegression
                   (as_point <$> index_points valid))) * 10)) / 10.
Proof.
  unfold HeartRatePage.restingHRTrendData.
  rewrite index_points_as_points.
  destruct valid as [|dv0 rest] eqn:Hv; [done|].
  rewrite list_lookup_imap.
  destruct ((dv0 :: rest) !! i) as [[d v]|] eqn:Hi; [|done].
  simpl. intros [= <-]. exists d, v. done.
Qed.

(** X22.  The resting-heart-rate trend has one row per day with a positive
    resting heart rate, in the order of the input and carrying that day's
    date and value.  With two or more such days the regression over the day
    index is never degenerate: the line used is the least-squares line, and
    each trend value is within 0.05 of it. *)
Theorem resting_hr_trend_follows_least_squares :
  length rows = length valid
  ∧ (∀ i row, rows !! i = Some row →
       ∃ d v,
         valid !! i = Some (d, v)
         ∧ d ∈ dailyHR
         ∧ HeartRatePage.restingHeartRate d = Some v ∧ 0 < v
         ∧ HeartRatePage.row_date row = HeartRatePage.date d
         ∧ HeartRatePage.dateLabel row
           = formatDateLabel (HeartRatePage.date d) needsYear
         ∧ HeartRatePage.restingHR row = v)
  ∧ ((2 ≤ length valid)%nat →
     ∃ reg,
       Correlations.linearRegression (index_points valid) = Some reg
       ∧ normal_equations (index_points valid)
           (Correlations.slope reg) (Correlations.intercept reg)
       ∧ ∀ i row, rows !! i = Some row →
           Qabs (HeartRatePage.trend row
                 - (Correlations.slope reg * inject_Z (Z.of_nat i)
                    + Correlations.intercept reg))
           <= 1 # 20).
Proof.
  split; [|split].
  - unfold HeartRatePage.restingHRTrendData.
    destruct valid; [done|]. by rewrite length_imap.
  - intros i row Hrow.
    destruct (trend_rows_lookup i row Hrow) as (d & v & Hi & ? & ? & ? & _).
    exists d, v. split; [done|].
    apply list_elem_of_lookup_2, list_elem_of_omap in Hi as (d' & Hin & Hd').
    apply valid_day_Some in Hd' as (-> & ? & ?). done.
  - intros Hlen.
    assert (2 ≤ length (index_points valid))%nat as Hlen'
      by (unfold index_points; by rewrite length_imap).
    destruct (linearRegression_Some_intro (index_points valid) Hlen'
                (index_points_vary _ Hlen)) as [reg Hreg].
    destruct (linearRegression_Some_inv _ _ Hreg) as (_ & _ & Hne).
    exists reg. split; [done|]. split; [done|].
    intros i row Hrow.
    destruct (trend_rows_lookup i row Hrow) as (d & v & _ & _ & _ & _ & ->).
    rewrite (heart_rate_regression_Some _ _ Hreg).
    cbn [HeartRatePage.slope HeartRatePage.intercept].
    set (line := Correlations.slope reg * inject_Z (Z.of_nat i)
                 + Correlations.intercept reg).
    destruct (math_round_nearest (line * 10)) as [H1 H2].
    apply Qabs_Qle_condition.
    set (R := inject_Z (HeartRatePage.math_round (line * 10))) in *.
    assert (R / 10 == R * (1 # 10)) as -> by field.
    split; lra.
Qed.

End RestingTrendFacts.

Section HeartRateRuns.

Local Open Scope Q_scope.

Lemma downsample_respects_the_budget_witness :
  (1 ≤ 2)%nat
  ∧ (length (HeartRatePage.downsample [1; 2; 3; 4; 5]%Z 2) ≤ 2)%nat
  ∧ head (HeartRatePage.downsample [1; 2; 3; 4; 5]%Z 2) = Some 1%Z.
Proof.
  assert (1 ≤ 2)%nat as H by lia.
  split; [exact H|].
  destruct (downsample_respects_the_budget [1; 2; 3; 4; 5]%Z 2 H)
    as (Hlen & _ & Hhead & _).
  split; [exact Hlen|exact Hhead].
Defined.

Lemma resting_hr_trend_follows_least_squares_witness :
  (2 ≤ length (omap HeartRatePage.valid_day hr_days))%nat
  ∧ ∃ reg,
      Correlations.linearRegression
        (index_points (omap HeartRatePage.valid_day hr_days)) = Some reg
      ∧ normal_equations
          (index_points (omap HeartRatePage.valid_day hr_days))
          (Correlations.slope reg) (Correlations.intercept reg).
Proof.
  assert (2 ≤ length (omap HeartRatePage.valid_day hr_days))%nat as H
    by (vm_compute; lia).
  split; [exact H|].
  destruct (proj2 (proj2 (resting_hr_trend_follows_least_squares
                            (λ d _, d) false hr_days)) H)
    as (reg & Hreg & Hne & _).
  exists reg. split; [exact Hreg|exact Hne].
Defined.

End HeartRateRuns.

(** ** Glucose as a correlation metric *)

Section GlucoseByDate.

Variables (db : list GlucoseReading) (start_dt end_dt : Z).

Local Abbreviation readings := (query_window db start_dt end_dt).

Lemma glucose_daily_rows (ds : list Z) (out : list Daily.DailySummary) :
  Forall2 (λ d row, Daily.summary_row readings d = Some row) ds out →
  ∃ glucose_daily,
    mapM (λ d, a ← Daily.sql_avg (Daily.group_values d readings); Some (d, a))
         ds = Some glucose_daily
    ∧ (λ g : Z * Q, (g.1, Py.round g.2)) <$> glucose_daily
      = (λ row, (Daily.date row, Daily.avg row)) <$> out.
Proof.
  induction 1 as [|d row ds out Hrow _ (gd & Hgd & Heq)].
  - by exists [].
  - unfold Daily.summary_row in Hrow.
    destruct (Daily.sql_avg (Daily.group_values d readings)) as [a|] eqn:Ha;
      simpl in Hrow; [|done].
    injection Hrow as <-.
    exists ((d, a) :: gd). split.
    + apply mapM_Some. constructor; [by rewrite Ha|by apply mapM_Some].
    + rewrite !fmap_cons, Heq. done.
Qed.

(** X23.  For the correlation with glucose, the value used for a date is
    the average that the daily summary reports for that date, and a date
    has a value exactly when it has a summary. *)
Theorem glucose_by_date_matches_daily_avg :
  ∃ by_date rows,
    glucose_by_date db start_dt end_dt = Some by_date
    ∧ Daily.get_glucose_daily db start_dt end_dt = Some rows
    ∧ ∀ d a, by_date !! d = Some a
             ↔ ∃ row, row ∈ rows ∧ Daily.date row = d ∧ Daily.avg row = a.
Proof.
  destruct (get_glucose_daily_total db start_dt end_dt) as (rows & Hrows & Hall).
  destruct (glucose_daily_rows _ _ Hall) as (gd & Hgd & Heq).
  destruct (daily_rows_dates _ _ _ Hall) as [Hdates _].
  unfold glucose_by_date. rewrite Hgd. simpl. rewrite Heq.
  do 2 eexists. split; [reflexivity|]. split; [done|].
  intros d a. rewrite <- elem_of_list_to_map.
  - rewrite list_elem_of_fmap. split.
    + intros (row & [= -> ->] & Hin). eauto.
    + intros (row & Hin & <- & <-). eauto.
  - rewrite <- list_fmap_compose.
    change (fst ∘ _) with Daily.date.
    rewrite Hdates. apply group_dates_NoDup.
Qed.

End GlucoseByDate.

Section GlucoseByDateRuns.

Lemma glucose_by_date_matches_daily_avg_witness :
  ∃ by_date,
    glucose_by_date tie_db day0_start day0_end = Some by_date
    ∧ by_date !! 0 = Some 100.
Proof.
  destruct (glucose_by_date_matches_daily_avg tie_db day0_start day0_end)
    as (by_date & rows & Hby & Hrows & Hiff).
  exists by_date. split; [exact Hby|].
  apply Hiff.
  exists {| Daily.date := 0; Daily.avg := 100; Daily.min := Some 100;
            Daily.max := Some 101; Daily.count := 2 |}.
  split; [|split; reflexivity].
  assert (rows = [ {| Daily.date := 0; Daily.avg := 100;
                      Daily.min := Some 100; Daily.max := Some 101;
                      Daily.count := 2 |} ]) as ->
    by (vm_compute in Hrows; congruence).
  left.
Defined.

End GlucoseByDateRuns.

(** ** The glucose page *)

Section GlucosePageFacts.


Variables (db : list GlucoseReading) (start : option Z).
Variables (date_range : Z * Z) (dt_range : Z → Z → Z * Z).


(** X25.  The 24 hours of the day get 24 different axis labels. *)
Theorem hour_labels_are_distinct (h1 h2 : nat) :
  (h1 < 24)%nat → (h2 < 24)%nat →
  GlucosePage.formatHour h1 = GlucosePage.formatHour h2 → h1 = h2.
Proof.
  intros H1 H2.
  do 24 (destruct h1 as [|h1]; [
    do 24 (destruct h2 as [|h2]; [vm_compute; try done; discriminate|]); lia|]).
  lia.
Qed.

End GlucosePageFacts.

Section GlucosePageRuns.

Lemma hour_labels_are_distinct_witness :
  (8 < 24)%nat ∧ (20 < 24)%nat
  ∧ GlucosePage.formatHour 8 ≠ GlucosePage.formatHour 20.
Proof.
  assert (8 < 24)%nat as H1 by lia.
  assert (20 < 24)%nat as H2 by lia.
  split; [exact H1|]. split; [exact H2|].
  intros Heq. pose proof (hour_labels_are_distinct 8 20 H1 H2 Heq) as Habs.
  discriminate Habs.
Defined.


End GlucosePageRuns.

(** ** The activity heatmap *)

Section GridFacts.

Context {A : Type}.

Lemma grid_length (f : nat → nat → A) (rows cols : nat) :
  length (seq 0 rows ≫= λ d, f d <$> seq 0 cols) = (cols * rows)%nat.
Proof.
  induction rows as [|rows IH]; [simpl; lia|].
  rewrite seq_S, bind_app, length_app, IH. simpl.
  rewrite app_nil_r, length_fmap, length_seq. lia.
Qed.

(** Row-major addressing of a grid built row by row. *)
Lemma grid_lookup (f : nat → nat → A) (rows cols d h : nat) :
  (d < rows)%nat → (h < cols)%nat →
  (seq 0 rows ≫= λ d, f d <$> seq 0 cols) !! (cols * d + h)%nat
  = Some (f d h).
Proof.
  intros Hd Hh. induction rows as [|rows IH]; [lia|].
  rewrite seq_S, bind_app. simpl. rewrite app_nil_r.
  destruct (decide (d < rows)%nat) as [Hlt|Hge].
  - rewrite lookup_app_l by (rewrite grid_length; nia). by apply IH.
  - assert (d = rows) as -> by lia.
    rewrite lookup_app_r by (rewrite grid_length; lia).
    rewrite grid_length, list_lookup_fmap.
    replace (cols * rows + h - cols * rows)%nat with h by lia.
    by rewrite lookup_seq_lt.
Qed.

End GridFacts.

Section HeatmapFacts.

Local Open Scope Q_scope.

Lemma or_zero_Some (v : Q) : ActivityPage.or_zero (Some v) == v.
Proof.
  simpl. destruct (Qeq_bool v 0) eqn:E; [|reflexivity].
  apply Qeq_bool_iff in E. by rewrite E.
Qed.

(** The 168 keys of the grid are pairwise different, and none of them is
    the key of an invalid date. *)
Lemma bucket_keys_distinct :
  NoDup (uncurry ActivityPage.bucket_key <$> cprod (seq 0 7) (seq 0 24))
  ∧ "NaN-NaN"%string
    ∉ uncurry ActivityPage.bucket_key <$> cprod (seq 0 7) (seq 0 24).
Proof.
  split.
  - apply (bool_decide_unpack _). vm_compute. exact I.
  - apply (bool_decide_unpack _). vm_compute. exact I.
Qed.

Lemma bucket_key_inj (d1 h1 d2 h2 : nat) :
  (d1 < 7)%nat → (h1 < 24)%nat → (d2 < 7)%nat → (h2 < 24)%nat →
  ActivityPage.bucket_key d1 h1 = ActivityPage.bucket_key d2 h2 →
  d1 = d2 ∧ h1 = h2.
Proof.
  intros Hd1 Hh1 Hd2 Hh2 Heq.
  destruct bucket_keys_distinct as [Hnd _].
  assert ((d1, h1) ∈ cprod (seq 0 7) (seq 0 24)) as H1
    by (apply list_elem_of_cprod; rewrite !elem_of_seq; simpl; lia).
  assert ((d2, h2) ∈ cprod (seq 0 7) (seq 0 24)) as H2
    by (apply list_elem_of_cprod; rewrite !elem_of_seq; simpl; lia).
  apply list_elem_of_lookup in H1 as [i Hi].
  apply list_elem_of_lookup in H2 as [j Hj].
  assert (i = j) as ->.
  { eapply (NoDup_lookup _ i j (ActivityPage.bucket_key d1 h1)); [exact Hnd|..];
      rewrite list_lookup_fmap.
    - by rewrite Hi.
    - rewrite Hj. simpl. by rewrite Heq. }
  rewrite Hi in Hj. by injection Hj.
Qed.

Lemma bucket_key_not_NaN (d h : nat) :
  (d < 7)%nat → (h < 24)%nat →
  ActivityPage.bucket_key d h ≠ "NaN-NaN"%string.
Proof.
  intros Hd Hh Heq. destruct bucket_keys_distinct as [_ Hnan]. apply Hnan.
  rewrite <- Heq.
  apply (list_elem_of_fmap_2 (uncurry ActivityPage.bucket_key) _ (d, h)).
  apply list_elem_of_cprod; rewrite !elem_of_seq; simpl; lia.
Qed.

Variable decode : string → option (nat * nat).

Local Abbreviation point_key := (ActivityPage.point_key decode).
Local Abbreviation point_slot := (ActivityPage.point_slot decode).

(** Each bucket holds the sum of the values of the points with its key. *)
Lemma buckets_spec (points : list ActivityPage.IntradayPoint) (key : string) :
  ActivityPage.or_zero
    (foldl (ActivityPage.add_point decode) ∅ points !! key)
  == ActivityPage.Qsum
       (ActivityPage.value <$> filter (λ p, point_key p = key) points).
Proof.
  induction points as [|p points IH] using rev_ind; [done|].
  rewrite foldl_snoc, filter_app, fmap_app. unfold ActivityPage.add_point at 1.
  assert (∀ l k, ActivityPage.Qsum (l ++ k)
                 == ActivityPage.Qsum l + ActivityPage.Qsum k) as Happ.
  { intros l k. induction l as [|v l IHl]; simpl; [ring|]. rewrite IHl. ring. }
  rewrite Happ, <- IH, filter_cons, filter_nil.
  destruct (decide (point_key p = key)) as [<-|Hne].
  - rewrite lookup_insert_eq, or_zero_Some. simpl. ring.
  - rewrite lookup_insert_ne by done. simpl. ring.
Qed.

Local Abbreviation max_step := (λ m v : Q, if Qle_bool v m then m else v).

Lemma scan_cells_spec (buckets : gmap string Q) (d : nat) (hs : list nat)
    (cells : list ActivityPage.HeatmapCell) (mx : Q) :
  let row :=
    (λ h, {| ActivityPage.day := d; ActivityPage.hour := h;
             ActivityPage.cell_value :=
               ActivityPage.or_zero
                 (buckets !! ActivityPage.bucket_key d h) |}) <$> hs in
  foldl (ActivityPage.scan_cell buckets d) (cells, mx) hs
  = (cells ++ row, foldl max_step mx (ActivityPage.cell_value <$> row)).
Proof.
  revert cells mx. induction hs as [|h hs IH]; intros cells mx; simpl.
  - by rewrite app_nil_r.
  - rewrite IH. simpl. by rewrite <- app_assoc.
Qed.

Lemma scan_days_spec (buckets : gmap string Q) (ds : list nat)
    (cells : list ActivityPage.HeatmapCell) (mx : Q) :
  let grid :=
    ds ≫= λ d,
      (λ h, {| ActivityPage.day := d; ActivityPage.hour := h;
               ActivityPage.cell_value :=
                 ActivityPage.or_zero
                   (buckets !! ActivityPage.bucket_key d h) |})
      <$> seq 0 24 in
  foldl (ActivityPage.scan_day buckets) (cells, mx) ds
  = (cells ++ grid, foldl max_step mx (ActivityPage.cell_value <$> grid)).
Proof.
  revert cells mx. induction ds as [|d ds IH]; intros cells mx.
  - simpl. by rewrite app_nil_r.
  - cbn [foldl]. unfold ActivityPage.scan_day at 2.
    rewrite scan_cells_spec, IH.
    cbn [mbind list_bind]. rewrite fmap_app, foldl_app, app_assoc. done.
Qed.

Lemma fold_max_step_spec (vs : list Q) (m0 : Q) :
  let m := foldl max_step m0 vs in
  m0 <= m ∧ (∀ v, v ∈ vs → v <= m) ∧ (m = m0 ∨ m ∈ vs).
Proof.
  revert m0. induction vs as [|w vs IH]; intros m0; simpl.
  - split; [lra|]. split; [|by left].
    intros v Hv. by apply not_elem_of_nil in Hv.
  - destruct (Qle_bool w m0) eqn:E.
    + apply Qle_bool_iff in E.
      destruct (IH m0) as (H0 & Hall & Hin).
      split; [done|]. split.
      * intros v [->|Hv]%elem_of_cons; [lra|by apply Hall].
      * destruct Hin as [?|?]; [by left|right; by right].
    + assert (m0 <= w) as Hle.
      { apply Qlt_le_weak, Qnot_le_lt. intros Hle.
        apply Qle_bool_iff in Hle. congruence. }
      destruct (IH w) as (H0 & Hall & Hin).
      split; [lra|]. split.
      * intros v [->|Hv]%elem_of_cons; [done|by apply Hall].
      * right. destruct Hin as [->|?]; [left|by right].
Qed.

End HeatmapFacts.

Section HeatmapClaims.

Local Open Scope Q_scope.

Variable decode : string → option (nat * nat).
Variable intradayData : list ActivityPage.IntradayPoint.

Local Abbreviation point_slot := (ActivityPage.point_slot decode).

Lemma heatmapCells_spec :
  let buckets := foldl (ActivityPage.add_point decode) ∅ intradayData in
  let grid :=
    seq 0 7 ≫= λ d,
      (λ h, {| ActivityPage.day := d; ActivityPage.hour := h;
               ActivityPage.cell_value :=
                 ActivityPage.or_zero
                   (buckets !! ActivityPage.bucket_key d h) |})
      <$> seq 0 24 in
  ActivityPage.heatmapCells decode intradayData
  = (grid, foldl (λ m v : Q, if Qle_bool v m then m else v) 0
             (ActivityPage.cell_value <$> grid)).
Proof.
  intros buckets grid. unfold ActivityPage.heatmapCells. fold buckets.
  by rewrite scan_days_spec.
Qed.

Lemma point_key_slot (p : ActivityPage.IntradayPoint) (d h : nat) :
  (∀ ts rawDay hour, decode ts = Some (rawDay, hour) →
     (rawDay < 7)%nat ∧ (hour < 24)%nat) →
  (d < 7)%nat → (h < 24)%nat →
  ActivityPage.point_key decode p = ActivityPage.bucket_key d h
  ↔ point_slot p = Some (d, h).
Proof.
  intros Hrange Hd Hh. unfold ActivityPage.point_key.
  destruct (point_slot p) as [[d' h']|] eqn:Hslot.
  - assert ((d' < 7)%nat ∧ (h' < 24)%nat) as [Hd' Hh'].
    { unfold ActivityPage.point_slot in Hslot.
      destruct (decode (ActivityPage.timestamp p)) as [[rawDay hour]|] eqn:Hdec;
        [|done].
      destruct (Hrange _ _ _ Hdec). injection Hslot as <- <-.
      destruct (rawDay =? 0)%nat; lia. }
    split.
    + intros Heq. by destruct (bucket_key_inj _ _ _ _ Hd' Hh' Hd Hh Heq) as [-> ->].
    + by intros [= -> ->].
  - split; [|done]. intros Heq. symmetry in Heq.
    by apply bucket_key_not_NaN in Heq.
Qed.

(** X26.  Provided [getDay] and [getHours] return a weekday below 7 and an
    hour below 24, the heatmap has 168 cells in day-major order, Monday
    first, and the cell of a weekday and hour holds the sum of the values of
    exactly the points that fall on that weekday and hour: no point is lost,
    and none is added to another cell. *)
Theorem heatmap_cells_hold_the_slot_totals :
  (∀ ts rawDay hour, decode ts = Some (rawDay, hour) →
     (rawDay < 7)%nat ∧ (hour < 24)%nat) →
  let cells := (ActivityPage.heatmapCells decode intradayData).1 in
  length cells = 168%nat
  ∧ ∀ d h, (d < 7)%nat → (h < 24)%nat →
      ∃ c, cells !! (24 * d + h)%nat = Some c
         ∧ ActivityPage.day c = d
         ∧ ActivityPage.hour c = h
         ∧ ActivityPage.cell_value c
           == ActivityPage.Qsum
                (ActivityPage.value
                 <$> filter (λ p, point_slot p = Some (d, h)) intradayData).
Proof.
  intros Hrange cells. subst cells. rewrite heatmapCells_spec. cbn [fst].
  split; [by rewrite grid_length|].
  intros d h Hd Hh. eexists. split; [by apply grid_lookup|].
  cbn [ActivityPage.day ActivityPage.hour ActivityPage.cell_value].
  split; [done|]. split; [done|].
  rewrite buckets_spec.
  rewrite (list_filter_iff _ (λ p, point_slot p = Some (d, h))); [done|].
  intros p. by apply point_key_slot.
Qed.

(** X27.  [maxValue] is never negative, no cell exceeds it, and unless it is
    zero it is the value of one of the cells. *)
Theorem heatmap_max_value_bounds_the_cells :
  let cells := (ActivityPage.heatmapCells decode intradayData).1 in
  let maxValue := (ActivityPage.heatmapCells decode intradayData).2 in
  0 <= maxValue
  ∧ (∀ c, c ∈ cells → ActivityPage.cell_value c <= maxValue)
  ∧ (maxValue = 0 ∨ ∃ c, c ∈ cells ∧ ActivityPage.cell_value c = maxValue).
Proof.
  intros cells maxValue. subst cells maxValue.
  rewrite heatmapCells_spec. cbn [fst snd].
  match goal with
  | |- context [foldl ?f 0 (ActivityPage.cell_value <$> ?g)] =>
      destruct (fold_max_step_spec (ActivityPage.cell_value <$> g) 0)
        as (H0 & Hall & Hin)
  end.
  split; [done|]. split.
  - intros c Hc. apply Hall. by apply list_elem_of_fmap_2.
  - destruct Hin as [?|Hin]; [by left|right].
    apply list_elem_of_fmap in Hin as (c & Heq & Hc). eauto.
Qed.

End HeatmapClaims.

Section HeatmapRuns.

Local Open Scope Q_scope.

Lemma example_decode_in_range (ts : string) (rawDay hour : nat) :
  example_decode ts = Some (rawDay, hour) →
  (rawDay < 7)%nat ∧ (hour < 24)%nat.
Proof.
  unfold example_decode.
  destruct (String.eqb ts "mon-08"); [intros [= <- <-]; lia|].
  destruct (String.eqb ts "sun-23"); [intros [= <- <-]; lia|done].
Defined.

Lemma heatmap_cells_hold_the_slot_totals_witness :
  (∀ ts rawDay hour, example_decode ts = Some (rawDay, hour) →
     (rawDay < 7)%nat ∧ (hour < 24)%nat)
  ∧ ∃ c, (ActivityPage.heatmapCells example_decode example_intraday).1
           !! (24 * 0 + 8)%nat = Some c
       ∧ ActivityPage.cell_value c == 165.
Proof.
  split; [exact example_decode_in_range|].
  destruct (proj2 (heatmap_cells_hold_the_slot_totals example_decode
                     example_intraday example_decode_in_range)
              0%nat 8%nat ltac:(lia) ltac:(lia))
    as (c & Hc & _ & _ & Hval).
  exists c. split; [exact Hc|]. rewrite Hval. reflexivity.
Defined.

Lemma heatmap_max_value_bounds_the_cells_witness :
  0 <= (ActivityPage.heatmapCells example_decode example_intraday).2.
Proof.
  exact (proj1 (heatmap_max_value_bounds_the_cells example_decode
                  example_intraday)).
Defined.

End HeatmapRuns.
